(** * build_image.py: the Minoca OS image build task

    A shallow embedding of [tasks/osbuilder/build_image.py] and the proofs of
    the properties its specification states about it.

    The script is sequential Python 2 code that drives the file system and a
    series of external commands.  Strings are byte strings; the text that
    comes from the recipe file and the paths of the build tree are taken to
    be ASCII, while data decoded from base64 may hold any byte.  It is
    embedded as a state-and-error monad over a [World] (current directory,
    process environment, and the chronological log of everything the script
    asked the operating system to do).  Whatever the outside decides -- the
    wait status of a command, whether a file-system call succeeds -- is read
    from a [Host] oracle. *)

From Stdlib Require Import ZArith List Ascii String Bool Lia.
From Stdlib Require Import DecimalString HexadecimalString DecimalZ DecimalPos.
From stdpp Require Import base option gmap strings.

Import ListNotations.
Local Open Scope string_scope.
Local Open Scope Z_scope.

(* ===================================================================== *)
(** ** Python library functions the script calls *)
(* ===================================================================== *)

Module Py.

(** The character [chr 34] and [chr 39], used by the command templates. *)
Definition dquote : ascii := ascii_of_nat 34.
Definition squote : ascii := ascii_of_nat 39.

Definition str1 (c : ascii) : string := String c EmptyString.

(** [s.startswith('/')] and [s.endswith('/')]. *)
Definition starts_with_slash (s : string) : bool :=
  match s with
  | String c _ => Ascii.eqb c "/"
  | EmptyString => false
  end.

Fixpoint ends_with_slash (s : string) : bool :=
  match s with
  | EmptyString => false
  | String c EmptyString => Ascii.eqb c "/"
  | String _ rest => ends_with_slash rest
  end.

(** [posixpath.join(a, b)] for one component:
<<
    if b.startswith('/'):  path = b
    elif path == '' or path.endswith('/'):  path += b
    else:  path += '/' + b
>> *)
Definition join2 (path b : string) : string :=
  if starts_with_slash b then b
  else if (String.eqb path EmptyString || ends_with_slash path)%bool
       then path ++ b
       else path ++ "/" ++ b.

(** [os.path.join(a, *p)]. *)
Definition join (a : string) (p : list string) : string :=
  fold_left join2 p a.

(** [path.split('/')]. *)
Fixpoint split_slash_aux (acc : string) (s : string) : list string :=
  match s with
  | EmptyString => [acc]
  | String c rest =>
      if Ascii.eqb c "/" then acc :: split_slash_aux EmptyString rest
      else split_slash_aux (acc ++ str1 c) rest
  end.

Definition split_slash (s : string) : list string :=
  split_slash_aux EmptyString s.

(** ['/'.join(comps)]. *)
Fixpoint slash_join (comps : list string) : string :=
  match comps with
  | [] => EmptyString
  | [c] => c
  | c :: rest => c ++ "/" ++ slash_join rest
  end.

(** The component loop of [posixpath.normpath]; [new_comps] is kept reversed,
    so its head is Python's [new_comps[-1]]. *)
Fixpoint norm_comps (initial_slashes : bool) (comps new_comps : list string)
  : list string :=
  match comps with
  | [] => rev new_comps
  | comp :: rest =>
      if (String.eqb comp EmptyString || String.eqb comp ".")%bool then
        norm_comps initial_slashes rest new_comps
      else if (negb (String.eqb comp "..")
               || (negb initial_slashes && match new_comps with [] => true | _ => false end)
               || match new_comps with
                  | last :: _ => String.eqb last ".."
                  | [] => false
                  end)%bool
      then norm_comps initial_slashes rest (comp :: new_comps)
      else match new_comps with
           | _ :: popped => norm_comps initial_slashes rest popped
           | [] => norm_comps initial_slashes rest new_comps
           end
  end.

(** How many leading slashes [normpath] keeps: none, one, or two (exactly two
    leading slashes are preserved, three or more collapse to one). *)
Definition initial_slashes (path : string) : nat :=
  match path with
  | String a (String b (String c _)) =>
      if Ascii.eqb a "/" then
        if Ascii.eqb b "/" then (if Ascii.eqb c "/" then 1 else 2)%nat
        else 1%nat
      else 0%nat
  | String a (String b EmptyString) =>
      if Ascii.eqb a "/" then (if Ascii.eqb b "/" then 2 else 1)%nat else 0%nat
  | String a EmptyString => if Ascii.eqb a "/" then 1%nat else 0%nat
  | EmptyString => 0%nat
  end.

Fixpoint slashes (n : nat) : string :=
  match n with
  | O => EmptyString
  | S k => String "/" (slashes k)
  end.

(** [os.path.normpath(path)]. *)
Definition normpath (path : string) : string :=
  if String.eqb path EmptyString then "."
  else
    let n := initial_slashes path in
    let comps := norm_comps (negb (Nat.eqb n 0)) (split_slash path) [] in
    let res := slashes n ++ slash_join comps in
    if String.eqb res EmptyString then "." else res.

(** [_safechars] of [pipes.quote]: ASCII letters, digits and [@%_-+=:,./]. *)
Definition safechar (c : ascii) : bool :=
  let n := nat_of_ascii c in
  ((65 <=? n) && (n <=? 90) || (97 <=? n) && (n <=? 122)
   || (48 <=? n) && (n <=? 57)
   || existsb (Ascii.eqb c)
        ["@"; "%"; "_"; "-"; "+"; "="; ":"; ","; "."; "/"]%char)%nat%bool.

Fixpoint all_safe (s : string) : bool :=
  match s with
  | EmptyString => true
  | String c rest => safechar c && all_safe rest
  end.

(** [file.replace("'", "'\"'\"'")]: every single quote becomes the five
    characters quote, double quote, quote, double quote, quote. *)
Fixpoint escape_squotes (s : string) : string :=
  match s with
  | EmptyString => EmptyString
  | String c rest =>
      if Ascii.eqb c squote
      then String squote (String dquote (String squote (String dquote
             (String squote (escape_squotes rest)))))
      else String c (escape_squotes rest)
  end.

(** [pipes.quote] (Python 2) / [shlex.quote] (Python 3):
<<
    for c in file:
        if c not in _safechars: break
    else:
        if not file: return "''"
        return file
    return "'" + file.replace("'", "'\"'\"'") + "'"
>> *)
Definition quote (file : string) : string :=
  if all_safe file then
    (if String.eqb file EmptyString then String squote (str1 squote) else file)
  else String squote (escape_squotes file ++ str1 squote).

(** Whether a byte string decodes as ASCII: no byte above 127. *)
Fixpoint is_ascii (s : string) : bool :=
  match s with
  | EmptyString => true
  | String c rest => (nat_of_ascii c <? 128)%nat && is_ascii rest
  end.

(** [str(n)] for an integer. *)
Definition str_int (n : Z) : string :=
  DecimalString.NilZero.string_of_int (Z.to_int n).

(** ["%d" % n]. *)
Definition fmt_d (n : Z) : string := str_int n.

(** ["%x" % n]: lower-case hexadecimal, with a leading minus sign for a
    negative number. *)
Definition fmt_x (n : Z) : string :=
  HexadecimalString.NilZero.string_of_int (Z.to_hex_int n).

(** [os.WIFEXITED(status)] and [os.WEXITSTATUS(status)]. *)
Definition WIFEXITED (status : Z) : bool := Z.land status 127 =? 0.
Definition WEXITSTATUS (status : Z) : Z := Z.land (Z.shiftr status 8) 255.

(** Permission bits of the [stat] module. *)
Definition S_IRUSR : Z := 256.
Definition S_IWUSR : Z := 128.
Definition S_IXUSR : Z := 64.
Definition S_IRGRP : Z := 32.
Definition S_IWGRP : Z := 16.
Definition S_IXGRP : Z := 8.
Definition S_IROTH : Z := 4.
Definition S_IXOTH : Z := 1.

(** [table_a2b_base64] of CPython's [binascii]: the six-bit value of a base64
    character, with no entry ([-1] in C) for every other character.  The pad
    character ['='] has the entry [0]. *)
Definition table_a2b_base64 (c : ascii) : option Z :=
  let n := Z.of_nat (nat_of_ascii c) in
  if (65 <=? n) && (n <=? 90) then Some (n - 65)
  else if (97 <=? n) && (n <=? 122) then Some (n - 71)
  else if (48 <=? n) && (n <=? 57) then Some (n + 4)
  else if Ascii.eqb c "+" then Some 62
  else if Ascii.eqb c "/" then Some 63
  else if Ascii.eqb c "=" then Some 0
  else None.

(** [binascii_find_valid(s, slen, num)]: the [(num+1)]th character of [s]
    that has a table entry, if any. *)
Fixpoint binascii_find_valid (s : string) (num : nat) : option ascii :=
  match s with
  | EmptyString => None
  | String c rest =>
      if (Z.of_nat (nat_of_ascii c) <=? 127) && bool_decide (is_Some (table_a2b_base64 c))
      then match num with
           | O => Some c
           | S k => binascii_find_valid rest k
           end
      else binascii_find_valid rest num
  end.

Definition chr (n : Z) : ascii := ascii_of_nat (Z.to_nat n).

(** The decoding loop of [binascii.a2b_base64] (CPython 2.7).  Characters
    outside the alphabet are skipped; a pad sequence ends the input; bits
    left over at the end are the error [Incorrect padding] ([None]). *)
Fixpoint a2b_base64_loop (s : string) (leftbits leftchar quad_pos : Z)
    (bin_data : string) : option string :=
  match s with
  | EmptyString => if leftbits =? 0 then Some bin_data else None
  | String this_ch rest =>
      let n := Z.of_nat (nat_of_ascii this_ch) in
      if (127 <? n) || (n =? 13) || (n =? 10) || (n =? 32) then
        a2b_base64_loop rest leftbits leftchar quad_pos bin_data
      else if Ascii.eqb this_ch "=" then
        if (quad_pos <? 2)
           || ((quad_pos =? 2)
               && negb (bool_decide (binascii_find_valid s 1 = Some "="%char)))
        then a2b_base64_loop rest leftbits leftchar quad_pos bin_data
        else Some bin_data
      else
        match table_a2b_base64 this_ch with
        | None => a2b_base64_loop rest leftbits leftchar quad_pos bin_data
        | Some v =>
            let quad_pos := Z.land (quad_pos + 1) 3 in
            let leftchar := Z.lor (Z.shiftl leftchar 6) v in
            let leftbits := leftbits + 6 in
            if 8 <=? leftbits then
              let leftbits := leftbits - 8 in
              a2b_base64_loop rest leftbits
                (Z.land leftchar (Z.shiftl 1 leftbits - 1)) quad_pos
                (bin_data ++ str1 (chr (Z.land (Z.shiftr leftchar leftbits) 255)))
            else a2b_base64_loop rest leftbits leftchar quad_pos bin_data
        end
  end.

(** [base64.b64decode(s)]: [None] stands for the [TypeError] it raises. *)
Definition b64decode (s : string) : option string :=
  a2b_base64_loop s 0 0 0 EmptyString.

End Py.

(* ===================================================================== *)
(** ** The outside world *)
(* ===================================================================== *)

(** The process environment, [os.environ]. *)
Abbreviation Env := (gmap string string).

(** What the script asks of the operating system, one entry per call. *)
Inductive Event : Type :=
| EvOpen (path mode : string)                 (* open(path, mode) *)
| EvPrint (msg : string)                      (* print(msg) *)
| EvChdir (dir : string)                      (* os.chdir(dir) *)
| EvSystem (dir : string) (env : Env) (command : string) (status : Z)
                                              (* os.system(command) *)
| EvRmtree (path : string)                    (* shutil.rmtree(path, True) *)
| EvMkdir (path : string)                     (* os.mkdir(path) *)
| EvMakedirs (path : string)                  (* os.makedirs(path) *)
| EvWrite (path content : string)             (* f.write(content); f.close() *)
| EvChmod (path : string) (mode : Z)          (* os.chmod(path, mode) *)
| EvChown (path : string) (uid gid : Z).      (* os.chown(path, uid, gid) *)

(** The exceptions the script can die of. *)
Inductive Exn : Type :=
| TypeError (msg : string)      (* base64.b64decode on malformed input *)
| UnicodeDecodeError (data : string)
                                (* a byte string that is not ASCII, joined
                                   to unicode text *)
| OSError (call : Event).       (* a refused file-system call *)

Record World : Type := mkWorld {
  cwd : string;                 (* current working directory *)
  environ : Env;                (* os.environ *)
  log : list Event              (* calls made so far, oldest first *)
}.

(** What the script does not decide itself. *)
Record Host : Type := mkHost {
  (** the wait status [os.system] returns for a command run in a world *)
  system_status : World -> string -> Z;
  (** whether a file-system call made in a world succeeds *)
  permits : World -> Event -> bool
}.

(** A call that changes the file system by the script's own hand. *)
Definition fs_mutation (e : Event) : bool :=
  match e with
  | EvRmtree _ | EvMkdir _ | EvMakedirs _ | EvWrite _ _
  | EvChmod _ _ | EvChown _ _ _ => true
  | EvOpen _ mode => negb (String.eqb mode "r")
  | EvSystem _ _ _ _ => true
  | EvPrint _ | EvChdir _ => false
  end.

(** The commands handed to [os.system], oldest first. *)
Fixpoint commands (evs : list Event) : list string :=
  match evs with
  | [] => []
  | EvSystem _ _ command _ :: rest => command :: commands rest
  | _ :: rest => commands rest
  end.

(* ===================================================================== *)
(** ** The monad of the script: state, [exit] and exceptions *)
(* ===================================================================== *)

Inductive Result (A : Type) : Type :=
| Ok (a : A)            (* normal completion *)
| Exit (code : Z)       (* exit(code) *)
| Raise (e : Exn).      (* uncaught exception *)
Arguments Ok {A} a.
Arguments Exit {A} code.
Arguments Raise {A} e.

Definition M (A : Type) : Type := World -> Result A * World.

Definition ret {A} (a : A) : M A := fun w => (Ok a, w).

Definition bind {A B} (m : M A) (k : A -> M B) : M B :=
  fun w =>
    match m w with
    | (Ok a, w') => k a w'
    | (Exit code, w') => (Exit code, w')
    | (Raise e, w') => (Raise e, w')
    end.

Declare Scope py_scope.
Delimit Scope py_scope with py.
Notation "x <- m ;; k" := (bind m (fun x => k))
  (at level 20, m at level 99, k at level 200, only parsing) : py_scope.
Notation "m ;; k" := (bind m (fun _ => k))
  (at level 100, k at level 200, right associativity, only parsing) : py_scope.
Local Open Scope py_scope.

Definition exit {A} (code : Z) : M A := fun w => (Exit code, w).
Definition raise {A} (e : Exn) : M A := fun w => (Raise e, w).

Definition emit (e : Event) : M unit :=
  fun w => (Ok tt, mkWorld (cwd w) (environ w) (log w ++ [e])).

(** A file-system call: logged, then refused or not by the host. *)
Definition os_call (h : Host) (e : Event) : M unit :=
  fun w =>
    let w' := mkWorld (cwd w) (environ w) (log w ++ [e]) in
    if permits h w e then (Ok tt, w') else (Raise (OSError e), w').

Definition print (msg : string) : M unit := emit (EvPrint msg).

Definition getcwd : M string := fun w => (Ok (cwd w), w).

Definition chdir (h : Host) (dir : string) : M unit :=
  os_call h (EvChdir dir) ;;
  fun w => (Ok tt, mkWorld (Py.join2 (cwd w) dir) (environ w) (log w)).

(** [os.environ[k] = v]. *)
Definition setenv (k v : string) : M unit :=
  fun w => (Ok tt, mkWorld (cwd w) (<[k := v]> (environ w)) (log w)).

(** [os.system(command)]: the child inherits the directory and environment. *)
Definition system (h : Host) (command : string) : M Z :=
  fun w =>
    let status := system_status h w command in
    (Ok status,
     mkWorld (cwd w) (environ w)
       (log w ++ [EvSystem (cwd w) (environ w) command status])).

Definition b64decode (s : string) : M string :=
  match Py.b64decode s with
  | Some data => ret data
  | None => raise (TypeError "Incorrect padding")
  end.

(** The decoding Python 2 applies to a byte string that is joined to
    unicode text ([str + unicode]): the bytes must be ASCII. *)
Definition decode_ascii (data : string) : M unit :=
  if Py.is_ascii data then ret tt else raise (UnicodeDecodeError data).

(** The bytes that are so decoded when the byte string [data] is joined to
    what [pipes.quote] returned for the unicode string [text]: all of
    [data], for the quoted text is unicode; none when [text] is empty, for
    which [quote] returns its own literal, a byte string. *)
Definition joined_to_quoted (text data : string) : string :=
  if String.eqb text EmptyString then EmptyString else data.

(** [for x in xs: body(x)]. *)
Fixpoint for_each {A} (xs : list A) (body : A -> M unit) : M unit :=
  match xs with
  | [] => ret tt
  | x :: rest => body x ;; for_each rest body
  end.

(** A [for] loop that threads one variable through its body. *)
Fixpoint for_each_with {A S} (xs : list A) (body : A -> S -> M S) (s : S)
  : M S :=
  match xs with
  | [] => ret s
  | x :: rest => s' <- body x s ;; for_each_with rest body s'
  end.

(* ===================================================================== *)
(** ** build_image.py *)
(* ===================================================================== *)

(** One entry of the recipe's [user_list]; the three text fields are
    base64. *)
Record UserSpec : Type := mkUser {
  username : string;
  gecos : string;
  enable_password : bool;
  password : string;
  ssh_authorized_keys : string
}.

(** The parsed [build_request.json]. *)
Record Recipe : Type := mkRecipe {
  platform : string;
  package_list : list string;
  user_list : list UserSpec;
  image_size : Z
}.

(** What the platform chain of [main] binds. *)
Record Profile : Type := mkProfile {
  arch : string;
  image_script : string;
  image : string
}.

Definition SYSTEM_BIN : list string :=
  ["debug"; "efiboot"; "mount"; "umount"; "msetup"; "profile"; "swiss";
   "vmstat"].

Definition SYSTEM_LIB : list string :=
  ["libc.so.1"; "libminocaos.so.1"; "libcrypt.so.1"].

Definition dq : string := Py.str1 Py.dquote.
Definition newline : string := Py.str1 (ascii_of_nat 10).

(** The test [run] makes on a wait status:
    [(not os.WIFEXITED(status)) or (os.WEXITSTATUS(status) != 0)]. *)
Definition failed (status : Z) : bool :=
  (negb (Py.WIFEXITED status) || negb (Py.WEXITSTATUS status =? 0))%bool.

(** [run(working_dir, command)]. *)
Definition run (h : Host) (working_dir command : string) : M unit :=
  chdir h working_dir ;;
  status <- system h command ;;
  if failed status
  then
    print ("Command " ++ command ++ " returned with status "
           ++ Py.fmt_x status) ;;
    exit 1
  else ret tt.

(** The [if platform == ... elif ...] chain of [main]; [None] is its [else]
    branch. *)
Definition resolve (imagescriptdir platform : string) : option Profile :=
  if String.eqb platform "PC" then
    Some (mkProfile "x86" (Py.join imagescriptdir ["build_pc.sh"]) "pc.img")
  else if String.eqb platform "UEFI-based PC" then
    Some (mkProfile "x86" (Py.join imagescriptdir ["build_pcefi.sh"])
            "pcefi.img")
  else if String.eqb platform "Raspberry Pi" then
    Some (mkProfile "armv6" (Py.join imagescriptdir ["build_rpi.sh"])
            "rpi.img")
  else if String.eqb platform "TI PandaBoard" then
    Some (mkProfile "armv7" (Py.join imagescriptdir ["build_panda.sh"])
            "panda.img")
  else if String.eqb platform "Intel Galileo" then
    Some (mkProfile "x86q" (Py.join imagescriptdir ["build_pcefi.sh"])
            "pcefi.img")
  else None.

(** ["cp -pv -- '%s' '%s'" % (source, dest)] of the two copy loops. *)
Definition copy_command (destdir item : string) : string :=
  let dest := Py.join destdir [item] in
  let source := Py.join "." [item] in
  "cp -pv -- '" ++ source ++ "' '" ++ dest ++ "'".

(** Body of the two copy loops over [SYSTEM_BIN] and [SYSTEM_LIB]. *)
Definition copy_item (h : Host) (binroot destdir item : string) : M unit :=
  run h binroot (copy_command destdir item).

Definition skel_command : string := "cp -Rpv ./skel/* ./apps/".

Definition symlink_command : string :=
  "for app in `/bin/swiss --list`; do ln -s swiss $app; done".

(** Lines 113-149: rebuild the apps directory. *)
Definition populate_apps (h : Host) (binroot appsdir : string) : M unit :=
  emit (EvRmtree appsdir) ;;
  os_call h (EvMkdir appsdir) ;;
  let bindir := Py.join appsdir ["bin"] in
  os_call h (EvMkdir bindir) ;;
  for_each SYSTEM_BIN (copy_item h binroot bindir) ;;
  let libdir := Py.join appsdir ["lib"] in
  os_call h (EvMkdir libdir) ;;
  for_each SYSTEM_LIB (copy_item h binroot libdir) ;;
  os_call h (EvMakedirs (Py.join appsdir ["usr"; "lib"; "opkg"])) ;;
  run h binroot skel_command ;;
  run h bindir symlink_command.

(** [opkg_args], lines 156-157. *)
Definition opkg_args (cwd arch appsdir : string) : string :=
  let opkg_conf := Py.join cwd [".."; arch; "opkg.conf"] in
  "--offline-root='" ++ appsdir ++ "' --conf='" ++ opkg_conf ++ "' -V2 ".

(** ["opkg %s update" % opkg_args]. *)
Definition update_command (opkg_args : string) : string :=
  "opkg " ++ opkg_args ++ " update".

(** ["opkg %s install --force-postinstall %s" % (opkg_args, package)]. *)
Definition install_command (opkg_args package : string) : string :=
  "opkg " ++ opkg_args ++ " install --force-postinstall " ++ package.

(** Body of the package loop, lines 165-167. *)
Definition install_package (h : Host) (appsdir opkg_args package : string)
  : M unit :=
  print ("Installing package " ++ package) ;;
  run h appsdir (install_command opkg_args package).

(** Lines 155-167: refresh the package list, install the packages. *)
Definition install_packages (h : Host) (cwd arch appsdir : string)
    (packages : list string) : M unit :=
  print "Updating package list." ;;
  let opkg_args := opkg_args cwd arch appsdir in
  run h appsdir (update_command opkg_args) ;;
  for_each packages (install_package h appsdir opkg_args).

(** Lines 202-217: install the authorized keys of one user. *)
Definition add_authorized_keys (h : Host) (appsdir name : string) (id : Z)
    (user : UserSpec) : M unit :=
  authorized_keys <- b64decode (ssh_authorized_keys user) ;;
  if negb (Nat.eqb (String.length authorized_keys) 0) then
    let dotssh := Py.join appsdir ["home"; name; ".ssh"] in
    let keyspath := Py.join dotssh ["authorized_keys"] in
    os_call h (EvMkdir dotssh) ;;
    os_call h (EvOpen keyspath "w") ;;
    os_call h (EvWrite keyspath authorized_keys) ;;
    os_call h (EvChmod keyspath (Z.lor Py.S_IRUSR Py.S_IWUSR)) ;;
    os_call h (EvChown keyspath id id) ;;
    let mode :=
      Z.lor (Z.lor (Z.lor (Z.lor (Z.lor (Z.lor (Z.lor
        Py.S_IRUSR Py.S_IWUSR) Py.S_IXUSR)
        Py.S_IRGRP) Py.S_IWGRP) Py.S_IXGRP)
        Py.S_IROTH) Py.S_IXOTH in
    os_call h (EvChmod dotssh mode) ;;
    os_call h (EvChown dotssh id id)
  else ret tt.

(** ['userdel --root="%s" root' % appsdir]. *)
Definition userdel_command (appsdir : string) : string :=
  "userdel --root=" ++ dq ++ appsdir ++ dq ++ " root".

(** The byte string [command] built at lines 187-191. *)
Definition useradd_options (appsdir gecos extra_args : string) (id : Z)
    (enable_password : bool) (password : string) : string :=
  let command :=
    "useradd --root=" ++ dq ++ appsdir ++ dq ++ " --comment=" ++ gecos
    ++ " -mU " ++ extra_args ++ " -u" ++ Py.fmt_d id in
  if enable_password then command ++ " --password=" ++ password ++ " "
  else command.

(** The [useradd] command line built at lines 187-193. *)
Definition useradd_command (appsdir gecos extra_args : string) (id : Z)
    (enable_password : bool) (password name : string) : string :=
  let command :=
    useradd_options appsdir gecos extra_args id enable_password password in
  command ++ " " ++ name ++ " ".

(** Body of the user loop, lines 175-217; the loop variable it threads is
    [next_id].  At line 193 [name], which is unicode when [json.loads] made
    it and [quote] kept or wrapped it, is appended to the byte string built
    so far: that string is decoded as ASCII first, which fails when the
    decoded gecos or password holds a byte above 127. *)
Definition add_user (h : Host) (appsdir : string) (user : UserSpec)
    (next_id : Z) : M Z :=
  let name := Py.quote (username user) in
  gecos_data <- b64decode (gecos user) ;;
  let gecos := Py.quote gecos_data in
  let enable_password := enable_password user in
  password_data <- b64decode (password user) ;;
  let password := Py.quote password_data in
  let extra_args := EmptyString in
  let id := next_id in
  id_args <-
    (if String.eqb name "root" then
       run h appsdir (userdel_command appsdir) ;;
       ret (0, "--home=/root")
     else ret (id, extra_args)) ;;
  let id := fst id_args in
  let extra_args := snd id_args in
  decode_ascii
    (joined_to_quoted (username user)
       (useradd_options appsdir gecos extra_args id enable_password
          password)) ;;
  run h appsdir
    (useradd_command appsdir gecos extra_args id enable_password password
       name) ;;
  let next_id := if id =? next_id then next_id + 1 else next_id in
  add_authorized_keys h appsdir name id user ;;
  ret next_id.

(** Lines 173-217: add the users and groups. *)
Definition add_users (h : Host) (appsdir : string) (users : list UserSpec)
  : M Z :=
  for_each_with users (add_user h appsdir) 1000.

(** ["sh '%s'" % image_script]. *)
Definition image_command (pf : Profile) : string :=
  "sh '" ++ image_script pf ++ "'".

(** ["mv '%s' minocaos.img" % image]. *)
Definition rename_command (pf : Profile) : string :=
  "mv '" ++ image pf ++ "' minocaos.img".

Definition tar_command : string := "tar -czf minocaos.tar.gz ./minocaos.img".

Definition upload_command : string :=
  "python ../../../client.py --upload schedule "
  ++ "minocaos.tar.gz minocaos.tar.gz".

(** Lines 223-238: set the build environment and run the image script. *)
Definition create_image (h : Host) (binroot : string) (pf : Profile)
    (size : Z) : M unit :=
  setenv "CI_MIN_IMAGE_SIZE" (Py.str_int size) ;;
  print "Creating final image." ;;
  (if String.eqb (arch pf) "x86q" then
     setenv "ARCH" "x86" ;;
     setenv "VARIANT" "q"
   else setenv "ARCH" (arch pf)) ;;
  setenv "DEBUG" "dbg" ;;
  run h binroot (image_command pf).

(** Lines 244-259: archive the image and upload it. *)
Definition archive_and_upload (h : Host) (binroot : string) (pf : Profile)
  : M unit :=
  print "Archiving image." ;;
  run h binroot (rename_command pf) ;;
  run h binroot tar_command ;;
  print "Uploading image." ;;
  run h binroot upload_command ;;
  print "Successfully created OS image.".

(** [main(argv)], given the recipe that [json.loads] returned. *)
Definition main (h : Host) (recipe : Recipe) : M Z :=
  emit (EvOpen "build_request.json" "r") ;;
  cwd <- getcwd ;;
  let imagescriptdir := Py.join cwd [".."; ".."; "tasks"; "images"] in
  match resolve imagescriptdir (platform recipe) with
  | None =>
      print ("Error: Unknown platform " ++ platform recipe ++ newline) ;;
      ret 1
  | Some pf =>
      let pkgroot := Py.normpath (Py.join cwd [".."; arch pf; "packages"]) in
      let binroot := Py.normpath (Py.join cwd [".."; arch pf; "bin"]) in
      let appsdir := Py.join binroot ["apps"] in
      populate_apps h binroot appsdir ;;
      install_packages h cwd (arch pf) appsdir (package_list recipe) ;;
      add_users h appsdir (user_list recipe) ;;
      create_image h binroot pf (image_size recipe) ;;
      archive_and_upload h binroot pf ;;
      ret 0
  end.

(** The exit status of the process: [exit(main(sys.argv))]; an uncaught
    exception ends the interpreter with status 1. *)
Definition exit_status (r : Result Z) : Z :=
  match r with
  | Ok code => code
  | Exit code => code
  | Raise _ => 1
  end.

(* ===================================================================== *)
(** ** What a run leaves in the log *)
(* ===================================================================== *)

Local Open Scope list_scope.

Lemma commands_app (l1 l2 : list Event) :
  commands (l1 ++ l2) = commands l1 ++ commands l2.
Proof.
  induction l1 as [|e l1 IH]; simpl; [reflexivity|].
  destruct e; simpl; rewrite ?IH; reflexivity.
Qed.

Lemma in_commands (c : string) (evs : list Event) :
  In c (commands evs) ->
  exists dir env status, In (EvSystem dir env c status) evs.
Proof.
  induction evs as [|e evs IH]; simpl; [tauto|].
  destruct e; simpl; intros H;
    try (destruct (IH H) as (d & v & st & Hin); eauto 6; fail).
  destruct H as [<- | H]; [eauto 6|].
  destruct (IH H) as (d & v & st & Hin); eauto 6.
Qed.

Section Trace.

(** [E env command]: what is claimed of the environment a command runs in. *)
Variable E : Env -> string -> Prop.

(** An event that lets the run go on: every call other than a command, and
    a command that exited with status 0. *)
Definition fine (e : Event) : Prop :=
  match e with
  | EvSystem _ env command status => failed status = false /\ E env command
  | _ => True
  end.

(** The log of a computation against its [plan], the commands it issues when
    nothing fails, and the value [expected] it then returns.  A run that
    ends in [exit] stopped right after the first failing command; a run that
    dies of an exception issued a prefix of the plan. *)
Definition trace_post {A} (plan : list string) (expected : A) (w : World)
    (out : Result A * World) : Prop :=
  exists evs, log (snd out) = log w ++ evs /\
    match fst out with
    | Ok a => a = expected /\ commands evs = plan /\ Forall fine evs
    | Exit code =>
        code = 1 /\
        exists pre dir env command status msg rest,
          evs = pre ++ [EvSystem dir env command status; EvPrint msg] /\
          failed status = true /\ E env command /\ Forall fine pre /\
          plan = commands pre ++ command :: rest
    | Raise _ => Forall fine evs /\ exists rest, plan = commands evs ++ rest
    end.

(** The same for a computation that leaves [os.environ] alone. *)
Definition stage_post {A} (plan : list string) (expected : A) (w : World)
    (out : Result A * World) : Prop :=
  environ (snd out) = environ w /\ trace_post plan expected w out.

Lemma trace_bind {A B} (P : World -> Prop) (m : M A) (k : A -> M B)
    p1 p2 a b w :
  trace_post p1 a w (m w) ->
  (forall a' w1, m w = (Ok a', w1) -> P w1) ->
  (forall w1, P w1 -> trace_post p2 b w1 (k a w1)) ->
  trace_post (p1 ++ p2) b w (bind m k w).
Proof.
  intros (evs1 & Hlog1 & H1) HP Hk. unfold bind.
  destruct (m w) as [[a'|code|e] w1] eqn:Hm; simpl in *.
  - destruct H1 as (-> & Hc1 & Hf1).
    destruct (Hk w1 (HP _ _ eq_refl)) as (evs2 & Hlog2 & H2).
    exists (evs1 ++ evs2). split.
    { rewrite Hlog2, Hlog1, app_assoc. reflexivity. }
    destruct (fst (k a w1)) as [b'|code|e].
    + destruct H2 as (-> & Hc2 & Hf2). rewrite commands_app, Hc1, Hc2.
      split; [reflexivity|]. split; [reflexivity|].
      apply Forall_app; split; assumption.
    + destruct H2 as (-> & pre & d & v & c & st & msg & rest & -> & Hst & HE
                      & Hpre & ->).
      split; [reflexivity|].
      exists (evs1 ++ pre), d, v, c, st, msg, rest.
      repeat split; try assumption;
        rewrite ?commands_app, ?Hc1, <- ?app_assoc; try reflexivity.
      apply Forall_app; split; assumption.
    + destruct H2 as (Hf2 & rest & ->). split.
      { apply Forall_app; split; assumption. }
      exists rest. rewrite commands_app, Hc1, app_assoc. reflexivity.
  - exists evs1. split; [assumption|].
    destruct H1 as (-> & pre & d & v & c & st & msg & rest & -> & Hst & HE
                    & Hpre & ->).
    split; [reflexivity|].
    exists pre, d, v, c, st, msg, (rest ++ p2).
    repeat split; try assumption.
    rewrite <- app_assoc. reflexivity.
  - exists evs1. split; [assumption|].
    destruct H1 as (Hf1 & rest & ->). split; [assumption|].
    exists (rest ++ p2). rewrite app_assoc. reflexivity.
Qed.

(** A stage followed by anything. *)
Lemma stage_then {A B} (m : M A) (k : A -> M B) p1 p2 a b w :
  stage_post p1 a w (m w) ->
  (forall w1, environ w1 = environ w -> trace_post p2 b w1 (k a w1)) ->
  trace_post (p1 ++ p2) b w (bind m k w).
Proof.
  intros [Henv H1] Hk.
  apply trace_bind with (P := fun w1 => environ w1 = environ w) (a := a);
    try assumption.
  intros a' w1 Hm. rewrite Hm in Henv. exact Henv.
Qed.

(** Two stages in a row are a stage. *)
Lemma stage_bind {A B} (m : M A) (k : A -> M B) p1 p2 a b w :
  stage_post p1 a w (m w) ->
  (forall w1, environ w1 = environ w -> stage_post p2 b w1 (k a w1)) ->
  stage_post (p1 ++ p2) b w (bind m k w).
Proof.
  intros [Henv H1] Hk. split.
  - unfold bind. destruct H1 as (evs1 & _ & H1).
    destruct (m w) as [[a'|code|e] w1]; simpl in *; try assumption.
    destruct H1 as (-> & _). destruct (Hk w1 Henv) as [Henv2 _]. congruence.
  - apply stage_then with (a := a); [split; assumption|].
    intros w1 Hw1. destruct (Hk w1 Hw1) as [_ Ht]. exact Ht.
Qed.

Lemma stage_ret {A} (a : A) w : stage_post [] a w (ret a w).
Proof.
  split; [reflexivity|]. exists []. simpl. rewrite app_nil_r. auto.
Qed.

Lemma stage_print msg w : stage_post [] tt w (print msg w).
Proof.
  split; [reflexivity|]. exists [EvPrint msg]. simpl.
  repeat split. repeat constructor.
Qed.

Lemma stage_emit e w :
  commands [e] = [] -> stage_post [] tt w (emit e w).
Proof.
  intros He. destruct e; try discriminate He;
    (split; [reflexivity|]); eexists [_]; simpl;
    repeat split; repeat constructor.
Qed.

Lemma stage_os_call h e w :
  commands [e] = [] -> stage_post [] tt w (os_call h e w).
Proof.
  intros He. unfold os_call.
  destruct e; try discriminate He;
    match goal with |- context [permits h w ?e] => destruct (permits h w e) end;
    (split; [reflexivity|]); eexists [_]; simpl;
    repeat split; repeat constructor; exists []; reflexivity.
Qed.

Lemma stage_run h dir command w :
  E (environ w) command -> stage_post [command] tt w (run h dir command w).
Proof.
  intros HE. unfold run, chdir, os_call, system, print, emit, exit, bind, ret.
  destruct (permits h w (EvChdir dir)); simpl.
  - match goal with
    | |- context [failed ?st] => destruct (failed st) eqn:Hst
    end; simpl.
    + split; [reflexivity|].
      eexists. rewrite <- !app_assoc. split; [reflexivity|]. simpl.
      split; [reflexivity|].
      eexists [EvChdir dir], _, _, _, _, _, []. simpl.
      repeat split; try eassumption; try reflexivity. repeat constructor.
    + split; [reflexivity|].
      eexists. rewrite <- !app_assoc. split; [reflexivity|]. simpl.
      repeat split. repeat constructor; assumption.
  - split; [reflexivity|]. exists [EvChdir dir]. simpl.
    repeat split; [repeat constructor|]. exists [command]. reflexivity.
Qed.

(** The decoded text of a base64 field, where it decodes. *)
Definition decoded (s : string) : string :=
  match Py.b64decode s with
  | Some data => data
  | None => EmptyString
  end.

Lemma stage_b64decode s w : stage_post [] (decoded s) w (b64decode s w).
Proof.
  unfold b64decode, decoded. destruct (Py.b64decode s); simpl.
  - apply stage_ret.
  - split; [reflexivity|]. exists []. simpl. rewrite app_nil_r.
    repeat split; [constructor|]. exists []. reflexivity.
Qed.

Lemma stage_decode_ascii data w :
  stage_post [] tt w (decode_ascii data w).
Proof.
  unfold decode_ascii. destruct (Py.is_ascii data).
  - apply stage_ret.
  - split; [reflexivity|]. exists []. simpl. rewrite app_nil_r.
    repeat split; [constructor|]. exists []. reflexivity.
Qed.

Lemma stage_for_each {A} (body : A -> M unit) (plan : A -> list string) xs :
  forall w,
    (forall x w1, In x xs -> environ w1 = environ w ->
                  stage_post (plan x) tt w1 (body x w1)) ->
    stage_post (flat_map plan xs) tt w (for_each xs body w).
Proof.
  induction xs as [|x xs IH]; intros w Hbody; simpl.
  - apply stage_ret.
  - apply stage_bind with (a := tt).
    + apply Hbody; [left; reflexivity | reflexivity].
    + intros w1 Hw1. apply IH. intros y w2 Hy Hw2.
      apply Hbody; [right; assumption | congruence].
Qed.

Lemma stage_trace {A} plan (a : A) w out :
  stage_post plan a w out -> trace_post plan a w out.
Proof. intros [_ H]. exact H. Qed.

End Trace.

(* ===================================================================== *)
(** ** The plan of each part of [main] *)
(* ===================================================================== *)

(** The claim the plans carry about the environment: the image script, the
    only command that starts with [sh '], runs in [env1]. *)
Definition script_env (env1 env : Env) (command : string) : Prop :=
  String.prefix "sh '" command = true -> env = env1.

Definition populate_plan (appsdir : string) : list string :=
  map (copy_command (Py.join appsdir ["bin"])) SYSTEM_BIN
  ++ map (copy_command (Py.join appsdir ["lib"])) SYSTEM_LIB
  ++ [skel_command; symlink_command].

Definition packages_plan (cwd arch appsdir : string) (packages : list string)
  : list string :=
  update_command (opkg_args cwd arch appsdir)
  :: map (install_command (opkg_args cwd arch appsdir)) packages.

(** The commands of one turn of the user loop, and the counter after it. *)
Definition user_plan (appsdir : string) (next_id : Z) (user : UserSpec)
  : list string :=
  let name := Py.quote (username user) in
  let gecos := Py.quote (decoded (gecos user)) in
  let password := Py.quote (decoded (password user)) in
  if String.eqb name "root" then
    [userdel_command appsdir;
     useradd_command appsdir gecos "--home=/root" 0 (enable_password user)
       password name]
  else
    [useradd_command appsdir gecos EmptyString next_id (enable_password user)
       password name].

Definition user_next_id (next_id : Z) (user : UserSpec) : Z :=
  if String.eqb (Py.quote (username user)) "root" then next_id
  else next_id + 1.

Fixpoint users_plan (appsdir : string) (next_id : Z) (users : list UserSpec)
  : list string :=
  match users with
  | [] => []
  | user :: rest =>
      user_plan appsdir next_id user
      ++ users_plan appsdir (user_next_id next_id user) rest
  end.

Definition final_plan (pf : Profile) : list string :=
  [image_command pf; rename_command pf; tar_command; upload_command].

(** The directories [main] derives from [os.getcwd()]. *)
Definition imagescriptdir_of (cwd : string) : string :=
  Py.join cwd [".."; ".."; "tasks"; "images"].
Definition binroot_of (cwd : string) (pf : Profile) : string :=
  Py.normpath (Py.join cwd [".."; arch pf; "bin"]).
Definition appsdir_of (cwd : string) (pf : Profile) : string :=
  Py.join (binroot_of cwd pf) ["apps"].

(** Every command of a run of [main] in which nothing fails. *)
Definition main_plan (cwd : string) (pf : Profile) (recipe : Recipe)
  : list string :=
  populate_plan (appsdir_of cwd pf)
  ++ packages_plan cwd (arch pf) (appsdir_of cwd pf) (package_list recipe)
  ++ users_plan (appsdir_of cwd pf) 1000 (user_list recipe)
  ++ final_plan pf.

(** The environment [create_image] leaves. *)
Definition image_env (pf : Profile) (size : Z) (env : Env) : Env :=
  let env := <["CI_MIN_IMAGE_SIZE" := Py.str_int size]> env in
  let env :=
    if String.eqb (arch pf) "x86q"
    then <["VARIANT" := "q"]> (<["ARCH" := "x86"]> env)
    else <["ARCH" := arch pf]> env in
  <["DEBUG" := "dbg"]> env.

Lemma stage_post_eq E {A} p p' (a a' : A) w out :
  stage_post E p a w out -> p = p' -> a = a' -> stage_post E p' a' w out.
Proof. intros H -> ->. exact H. Qed.

Lemma flat_map_singleton {A B} (f : A -> B) (xs : list A) :
  flat_map (fun x => [f x]) xs = map f xs.
Proof. induction xs; simpl; congruence. Qed.

Lemma useradd_not_script appsdir gecos extra_args id enable password name :
  String.prefix "sh '"
    (useradd_command appsdir gecos extra_args id enable password name)
  = false.
Proof.
  unfold useradd_command, useradd_options. destruct enable; reflexivity.
Qed.

Ltac not_script :=
  unfold script_env; intros Hscript;
  first [ rewrite useradd_not_script in Hscript; discriminate
        | simpl in Hscript; discriminate ].

Ltac stage_leaf :=
  first
    [ apply stage_ret
    | apply stage_print
    | apply stage_emit; reflexivity
    | apply stage_os_call; reflexivity
    | apply stage_run; not_script
    | apply stage_b64decode
    | apply stage_decode_ascii ].

Ltac stage_steps :=
  repeat (eapply stage_bind; [stage_leaf | intros ? ?]); try stage_leaf.

Section Stages.

Variable env1 : Env.
Variable h : Host.

Lemma stage_copy_item binroot destdir item w :
  stage_post (script_env env1) [copy_command destdir item] tt w
    (copy_item h binroot destdir item w).
Proof. apply stage_run. not_script. Qed.

Lemma stage_populate_apps binroot appsdir w :
  stage_post (script_env env1) (populate_plan appsdir) tt w
    (populate_apps h binroot appsdir w).
Proof.
  unfold populate_apps.
  eapply stage_post_eq.
  - eapply stage_bind; [stage_leaf | intros ? ?].
    eapply stage_bind; [stage_leaf | intros ? ?].
    eapply stage_bind; [stage_leaf | intros ? ?].
    eapply stage_bind.
    { apply stage_for_each
        with (plan := fun item => [copy_command (Py.join appsdir ["bin"]) item]).
      intros. apply stage_copy_item. }
    intros ? ?.
    eapply stage_bind; [stage_leaf | intros ? ?].
    eapply stage_bind.
    { apply stage_for_each
        with (plan := fun item => [copy_command (Py.join appsdir ["lib"]) item]).
      intros. apply stage_copy_item. }
    intros ? ?.
    stage_steps.
  - reflexivity.
  - reflexivity.
Qed.

Lemma stage_install_package appsdir args package w :
  stage_post (script_env env1) [install_command args package] tt w
    (install_package h appsdir args package w).
Proof.
  unfold install_package.
  eapply stage_post_eq; [stage_steps | reflexivity | reflexivity].
Qed.

Lemma stage_install_packages cwd arch appsdir packages w :
  stage_post (script_env env1) (packages_plan cwd arch appsdir packages) tt w
    (install_packages h cwd arch appsdir packages w).
Proof.
  unfold install_packages.
  eapply stage_post_eq.
  - eapply stage_bind; [stage_leaf | intros ? ?].
    eapply stage_bind; [stage_leaf | intros ? ?].
    apply stage_for_each
      with (plan := fun package =>
                      [install_command (opkg_args cwd arch appsdir) package]).
    intros. apply stage_install_package.
  - simpl. rewrite flat_map_singleton. reflexivity.
  - reflexivity.
Qed.

Lemma stage_add_authorized_keys appsdir name id user w :
  stage_post (script_env env1) [] tt w
    (add_authorized_keys h appsdir name id user w).
Proof.
  unfold add_authorized_keys.
  apply stage_bind with (p1 := []) (p2 := []) (a := decoded (ssh_authorized_keys user)).
  - apply stage_b64decode.
  - intros w1 _.
    destruct (negb (Nat.eqb (String.length (decoded (ssh_authorized_keys user))) 0)).
    + eapply stage_post_eq; [stage_steps | reflexivity | reflexivity].
    + apply stage_ret.
Qed.

Lemma stage_add_user appsdir user next_id w :
  next_id <> 0 ->
  stage_post (script_env env1) (user_plan appsdir next_id user)
    (user_next_id next_id user) w (add_user h appsdir user next_id w).
Proof.
  intros Hid. unfold add_user, user_plan, user_next_id.
  destruct (String.eqb (Py.quote (username user)) "root") eqn:Hroot.
  - eapply stage_post_eq.
    + eapply stage_bind; [stage_leaf | intros ? ?].
      eapply stage_bind; [stage_leaf | intros ? ?].
      eapply stage_bind.
      { eapply stage_bind; [stage_leaf | intros ? ?]. stage_leaf. }
      intros ? ?.
      eapply stage_bind; [stage_leaf | intros ? ?].
      eapply stage_bind; [stage_leaf | intros ? ?].
      eapply stage_bind; [apply stage_add_authorized_keys | intros ? ?].
      stage_leaf.
    + reflexivity.
    + cbn [fst]. destruct (Z.eqb_spec 0 next_id); [congruence | reflexivity].
  - eapply stage_post_eq.
    + eapply stage_bind; [stage_leaf | intros ? ?].
      eapply stage_bind; [stage_leaf | intros ? ?].
      eapply stage_bind; [stage_leaf | intros ? ?].
      eapply stage_bind; [stage_leaf | intros ? ?].
      eapply stage_bind; [stage_leaf | intros ? ?].
      eapply stage_bind; [apply stage_add_authorized_keys | intros ? ?].
      stage_leaf.
    + reflexivity.
    + cbn [fst]. rewrite Z.eqb_refl. reflexivity.
Qed.

End Stages.

(** The counter after the user loop. *)
Definition users_next_id (next_id : Z) (users : list UserSpec) : Z :=
  fold_left user_next_id users next_id.

Lemma user_next_id_pos next_id user :
  0 < next_id -> 0 < user_next_id next_id user.
Proof. unfold user_next_id. destruct (String.eqb _ _); lia. Qed.

Lemma stage_for_users env1 h appsdir users :
  forall next_id w,
    0 < next_id ->
    stage_post (script_env env1) (users_plan appsdir next_id users)
      (users_next_id next_id users) w
      (for_each_with users (add_user h appsdir) next_id w).
Proof.
  induction users as [|user users IH]; intros next_id w Hpos; simpl.
  - apply stage_ret.
  - eapply stage_bind.
    + apply stage_add_user. lia.
    + intros w1 _. apply IH. apply user_next_id_pos. exact Hpos.
Qed.

Lemma stage_add_users env1 h appsdir users w :
  stage_post (script_env env1) (users_plan appsdir 1000 users)
    (users_next_id 1000 users) w (add_users h appsdir users w).
Proof. apply stage_for_users. lia. Qed.

(** A log that starts later: what came before held no command. *)
Lemma trace_post_shift E {A} plan (a : A) w w0 before out :
  log w0 = log w ++ before ->
  commands before = [] ->
  Forall (fine E) before ->
  trace_post E plan a w0 out ->
  trace_post E plan a w out.
Proof.
  intros Hlog Hc Hf (evs & Hevs & H). exists (before ++ evs). split.
  { rewrite Hevs, Hlog, app_assoc. reflexivity. }
  destruct (fst out) as [a'|code|e].
  - destruct H as (-> & <- & Hfine). rewrite commands_app, Hc.
    repeat split. apply Forall_app; split; assumption.
  - destruct H as (-> & pre & d & v & c & st & msg & rest & -> & Hst & HE
                   & Hpre & ->).
    split; [reflexivity|].
    exists (before ++ pre), d, v, c, st, msg, rest.
    rewrite commands_app, Hc, app_assoc.
    repeat split; try assumption. apply Forall_app; split; assumption.
  - destruct H as (Hfine & rest & ->). split.
    + apply Forall_app; split; assumption.
    + exists rest. rewrite commands_app, Hc. reflexivity.
Qed.

(** [create_image] is its [print] and its [run] in the environment it
    builds. *)
Lemma create_image_eq h binroot pf size w :
  create_image h binroot pf size w
  = (print "Creating final image." ;; run h binroot (image_command pf))
      (mkWorld (cwd w) (image_env pf size (environ w)) (log w)).
Proof.
  unfold create_image, image_env.
  destruct (String.eqb (arch pf) "x86q"); reflexivity.
Qed.

Lemma stage_archive_and_upload env1 h binroot pf w :
  stage_post (script_env env1)
    [rename_command pf; tar_command; upload_command] tt w
    (archive_and_upload h binroot pf w).
Proof.
  unfold archive_and_upload.
  eapply stage_post_eq; [stage_steps | reflexivity | reflexivity].
Qed.

(** From the image script to the end of [main]. *)
Lemma trace_final h binroot pf size w :
  trace_post (script_env (image_env pf size (environ w))) (final_plan pf) 0 w
    ((create_image h binroot pf size ;;
      archive_and_upload h binroot pf ;;
      ret 0) w).
Proof.
  set (env1 := image_env pf size (environ w)).
  set (w1 := mkWorld (cwd w) env1 (log w)).
  assert (Heq :
    (create_image h binroot pf size ;;
     archive_and_upload h binroot pf ;; ret 0) w
    = ((print "Creating final image." ;; run h binroot (image_command pf)) ;;
       archive_and_upload h binroot pf ;; ret 0) w1).
  { unfold bind at 1 3. rewrite create_image_eq. reflexivity. }
  rewrite Heq.
  apply trace_post_shift with (w0 := w1) (before := []);
    [simpl; rewrite app_nil_r; reflexivity | reflexivity | constructor |].
  apply stage_trace.
  eapply stage_post_eq.
  - eapply stage_bind.
    { eapply stage_bind; [stage_leaf | intros w2 Hw2].
      apply stage_run. intros _. exact Hw2. }
    intros ? ?.
    eapply stage_bind; [apply stage_archive_and_upload | intros ? ?].
    stage_leaf.
  - reflexivity.
  - reflexivity.
Qed.

(** [main] after its first two lines. *)
Lemma main_unfold h recipe w :
  main h recipe w
  = let w0 :=
      mkWorld (cwd w) (environ w)
        (log w ++ [EvOpen "build_request.json" "r"]) in
    match resolve (imagescriptdir_of (cwd w)) (platform recipe) with
    | None =>
        (print ("Error: Unknown platform " ++ platform recipe ++ newline)%string ;;
         ret 1) w0
    | Some pf =>
        (populate_apps h (binroot_of (cwd w) pf) (appsdir_of (cwd w) pf) ;;
         install_packages h (cwd w) (arch pf) (appsdir_of (cwd w) pf)
           (package_list recipe) ;;
         add_users h (appsdir_of (cwd w) pf) (user_list recipe) ;;
         create_image h (binroot_of (cwd w) pf) pf (image_size recipe) ;;
         archive_and_upload h (binroot_of (cwd w) pf) pf ;;
         ret 0) w0
    end.
Proof.
  unfold main, imagescriptdir_of, binroot_of, appsdir_of.
  unfold bind at 1. unfold emit. unfold bind at 1. unfold getcwd.
  cbv beta iota zeta. cbn [cwd].
  destruct (resolve _ _); reflexivity.
Qed.

(** Every run of [main] on a known platform follows [main_plan]: it issues
    the plan's commands in order, stops at the first one that fails, and
    runs the image script in the environment [image_env] builds. *)
Lemma main_trace h recipe w pf :
  resolve (imagescriptdir_of (cwd w)) (platform recipe) = Some pf ->
  trace_post
    (script_env (image_env pf (image_size recipe) (environ w)))
    (main_plan (cwd w) pf recipe) 0 w (main h recipe w).
Proof.
  intros Hpf. rewrite main_unfold, Hpf. cbv zeta.
  apply trace_post_shift
    with (w0 := mkWorld (cwd w) (environ w)
                  (log w ++ [EvOpen "build_request.json" "r"]))
         (before := [EvOpen "build_request.json" "r"]);
    [reflexivity | reflexivity | repeat constructor |].
  unfold main_plan.
  eapply stage_then; [apply stage_populate_apps | intros w1 Hw1].
  eapply stage_then; [apply stage_install_packages | intros w2 Hw2].
  eapply stage_then; [apply stage_add_users | intros w3 Hw3].
  replace (environ w) with (environ w3) by (simpl in *; congruence).
  apply trace_final.
Qed.

(* ===================================================================== *)
(** ** Consequences of the plan *)
(* ===================================================================== *)

(** Every command in the log of a computation ran in an environment the
    plan allows. *)
Lemma trace_post_env E {A} plan (a : A) w out :
  trace_post E plan a w out ->
  exists evs, log (snd out) = log w ++ evs /\
    forall dir env command status,
      In (EvSystem dir env command status) evs -> E env command.
Proof.
  intros (evs & Hlog & H). exists evs. split; [exact Hlog|].
  intros d v c st Hin.
  assert (Hfine : forall l, Forall (fine E) l ->
                            In (EvSystem d v c st) l -> E v c).
  { intros l Hl Hinl. rewrite List.Forall_forall in Hl.
    destruct (Hl _ Hinl) as [_ HE]. exact HE. }
  destruct (fst out) as [a'|code|e].
  - destruct H as (_ & _ & Hf). eauto.
  - destruct H as (_ & pre & d' & v' & c' & st' & msg & rest & -> & _ & HE
                   & Hpre & _).
    apply in_app_or in Hin. destruct Hin as [Hin | Hin]; [eauto|].
    destruct Hin as [Heq | [Heq | []]]; [|discriminate].
    injection Heq as -> -> -> ->. exact HE.
  - destruct H as (Hf & _). eauto.
Qed.

Lemma image_command_script pf :
  String.prefix "sh '" (image_command pf) = true.
Proof.
  unfold image_command. simpl.
  destruct (image_script pf ++ "'")%string; reflexivity.
Qed.

(** The image script runs in the environment [image_env] builds, and a run
    that returns 0 has issued the whole plan. *)
Lemma main_image_env h recipe w pf :
  resolve (imagescriptdir_of (cwd w)) (platform recipe) = Some pf ->
  exists evs, log (snd (main h recipe w)) = log w ++ evs /\
    (forall dir env status,
        In (EvSystem dir env (image_command pf) status) evs ->
        env = image_env pf (image_size recipe) (environ w)) /\
    (fst (main h recipe w) = Ok 0 ->
     commands evs = main_plan (cwd w) pf recipe).
Proof.
  intros Hpf. pose proof (main_trace h recipe w pf Hpf) as Ht.
  destruct (trace_post_env _ _ _ _ _ Ht) as (evs & Hlog & Henv).
  exists evs. split; [exact Hlog|]. split.
  - intros d v st Hin. apply (Henv d v _ st Hin).
    apply image_command_script.
  - intros Hok. destruct Ht as (evs' & Hlog' & H).
    rewrite Hlog in Hlog'. apply app_inv_head in Hlog'. subst evs'.
    rewrite Hok in H. destruct H as (_ & Hc & _). exact Hc.
Qed.

Lemma image_command_in_plan cwd pf recipe :
  In (image_command pf) (main_plan cwd pf recipe).
Proof.
  unfold main_plan, final_plan. rewrite !in_app_iff.
  right. right. right. left. reflexivity.
Qed.

Lemma image_env_debug pf size env :
  image_env pf size env !! "DEBUG" = Some "dbg".
Proof. unfold image_env. apply lookup_insert_eq. Qed.

Lemma image_env_arch pf size env :
  image_env pf size env !! "ARCH"
  = Some (if String.eqb (arch pf) "x86q" then "x86" else arch pf).
Proof.
  unfold image_env. rewrite lookup_insert_ne by discriminate.
  destruct (String.eqb (arch pf) "x86q").
  - rewrite lookup_insert_ne by discriminate. apply lookup_insert_eq.
  - apply lookup_insert_eq.
Qed.

Lemma image_env_variant pf size env :
  image_env pf size env !! "VARIANT"
  = if String.eqb (arch pf) "x86q" then Some "q" else env !! "VARIANT".
Proof.
  unfold image_env. rewrite lookup_insert_ne by discriminate.
  destruct (String.eqb (arch pf) "x86q").
  - apply lookup_insert_eq.
  - rewrite !lookup_insert_ne by discriminate. reflexivity.
Qed.

Lemma image_env_size pf size env :
  image_env pf size env !! "CI_MIN_IMAGE_SIZE" = Some (Py.str_int size).
Proof.
  unfold image_env. rewrite lookup_insert_ne by discriminate.
  destruct (String.eqb (arch pf) "x86q");
    rewrite ?lookup_insert_ne by discriminate; apply lookup_insert_eq.
Qed.

Lemma image_env_other pf size env (k : string) :
  k <> "CI_MIN_IMAGE_SIZE" -> k <> "ARCH" -> k <> "VARIANT" -> k <> "DEBUG" ->
  image_env pf size env !! k = env !! k.
Proof.
  intros H1 H2 H3 H4. unfold image_env.
  rewrite lookup_insert_ne by congruence.
  destruct (String.eqb (arch pf) "x86q");
    rewrite !lookup_insert_ne by congruence; reflexivity.
Qed.

(** The platform names of the chain in [main]. *)
Definition known_platforms : list string :=
  ["PC"; "UEFI-based PC"; "Raspberry Pi"; "TI PandaBoard"; "Intel Galileo"].

Lemma resolve_unknown dir platform :
  ~ In platform known_platforms -> resolve dir platform = None.
Proof.
  intros Hnot. unfold resolve.
  repeat match goal with
         | |- context [String.eqb ?a ?b] =>
             destruct (String.eqb_spec a b) as [-> | _];
             [exfalso; apply Hnot; simpl; tauto|]
         end.
  reflexivity.
Qed.

Lemma resolve_known dir platform :
  In platform known_platforms -> exists pf, resolve dir platform = Some pf.
Proof.
  simpl. intros [<- | [<- | [<- | [<- | [<- | []]]]]]; eexists; reflexivity.
Qed.

(* ===================================================================== *)
(** ** Hosts and recipes to run the script on *)
(* ===================================================================== *)

(** A host on which every command exits with status 0 and every call
    succeeds. *)
Definition obliging : Host := mkHost (fun _ _ => 0) (fun _ _ => true).

(** A host on which one command exits with status 1 (wait status 256). *)
Definition failing_on (bad : string) : Host :=
  mkHost (fun _ command => if String.eqb command bad then 256 else 0)
         (fun _ _ => true).

(** A host on which no directory can be made. *)
Definition read_only : Host :=
  mkHost (fun _ _ => 0)
         (fun _ e => match e with EvMkdir _ => false | _ => true end).

(** The build directory, with an empty environment and an empty log. *)
Definition start : World := mkWorld "/build/tasks" ∅ [].

Definition rpi_recipe : Recipe :=
  mkRecipe "Raspberry Pi" ["vim"] [] 536870912.

Definition rpi_profile (cwd : string) : Profile :=
  mkProfile "armv6" (Py.join (imagescriptdir_of cwd) ["build_rpi.sh"])
    "rpi.img".

Definition pc_profile (cwd : string) : Profile :=
  mkProfile "x86" (Py.join (imagescriptdir_of cwd) ["build_pc.sh"]) "pc.img".

(* ===================================================================== *)
(** ** Platform resolution *)
(* ===================================================================== *)

(** C5: for a recipe whose platform is none of the five known names, [main]
    returns 1 (a non-zero exit status) having done nothing but open the
    recipe file and print the error message: no directory is removed or
    created, no file is written, no command is run. *)
Theorem unknown_platform_stops_before_any_mutation h recipe w :
  ~ In (platform recipe) known_platforms ->
  exists evs,
    main h recipe w = (Ok 1, mkWorld (cwd w) (environ w) (log w ++ evs)) /\
    exit_status (fst (main h recipe w)) <> 0 /\
    evs = [EvOpen "build_request.json" "r";
           EvPrint ("Error: Unknown platform " ++ platform recipe ++ newline)%string] /\
    Forall (fun e => fs_mutation e = false) evs.
Proof.
  intros Hunknown.
  assert (Hmain : main h recipe w
                  = (Ok 1, mkWorld (cwd w) (environ w)
                      (log w ++ [EvOpen "build_request.json" "r";
                                 EvPrint ("Error: Unknown platform "
                                          ++ platform recipe ++ newline)%string]))).
  { rewrite main_unfold, (resolve_unknown _ _ Hunknown).
    unfold bind, print, emit, ret. simpl. rewrite <- app_assoc. reflexivity. }
  eexists. split; [exact Hmain|]. rewrite Hmain. simpl.
  split; [discriminate|]. split; [reflexivity|]. repeat constructor.
Qed.

Lemma unknown_platform_witness :
  exists evs,
    main obliging (mkRecipe "Commodore 64" ["vim"] [] 1024) start
    = (Ok 1, mkWorld "/build/tasks" ∅ evs) /\
    Forall (fun e => fs_mutation e = false) evs.
Proof.
  destruct (unknown_platform_stops_before_any_mutation obliging
              (mkRecipe "Commodore 64" ["vim"] [] 1024) start)
    as (evs & Hmain & _ & _ & Hfs).
  - simpl. intros [H | [H | [H | [H | [H | []]]]]]; discriminate H.
  - exists evs. split; [exact Hmain | exact Hfs].
Defined.

(* ===================================================================== *)
(** ** The environment of the image script *)
(* ===================================================================== *)

(** C9: on every known platform, whatever the recipe, every invocation of
    the image script finds [DEBUG] set to the literal [dbg]; a run that
    returns 0 has invoked the script. *)
Theorem debug_is_always_dbg h recipe w :
  In (platform recipe) known_platforms ->
  exists pf evs,
    resolve (imagescriptdir_of (cwd w)) (platform recipe) = Some pf /\
    log (snd (main h recipe w)) = log w ++ evs /\
    (forall dir env status,
        In (EvSystem dir env (image_command pf) status) evs ->
        env !! "DEBUG" = Some "dbg") /\
    (fst (main h recipe w) = Ok 0 ->
     exists dir env status, In (EvSystem dir env (image_command pf) status) evs).
Proof.
  intros Hknown.
  destruct (resolve_known (imagescriptdir_of (cwd w)) _ Hknown) as [pf Hpf].
  destruct (main_image_env h recipe w pf Hpf) as (evs & Hlog & Henv & Hok).
  exists pf, evs. repeat split; try assumption.
  - intros d v st Hin. rewrite (Henv d v st Hin). apply image_env_debug.
  - intros Hret. apply in_commands. rewrite (Hok Hret).
    apply image_command_in_plan.
Qed.

Lemma debug_is_always_dbg_witness :
  exists dir env status,
    In (EvSystem dir env (image_command (rpi_profile "/build/tasks")) status)
       (log (snd (main obliging rpi_recipe start))) /\
    env !! "DEBUG" = Some "dbg".
Proof.
  destruct (debug_is_always_dbg obliging rpi_recipe start)
    as (pf & evs & Hpf & Hlog & Hdebug & Hrun).
  - simpl. tauto.
  - assert (Hpf' : pf = rpi_profile "/build/tasks").
    { vm_compute in Hpf. injection Hpf as <-. reflexivity. }
    subst pf. change (log start ++ evs) with evs in Hlog.
    destruct Hrun as (d & v & st & Hin); [vm_compute; reflexivity|].
    exists d, v, st. rewrite Hlog. split; [exact Hin | exact (Hdebug d v st Hin)].
Defined.

(** C2, as the code has it: the variable [main] sets to the recipe's
    [image_size] is named [CI_MIN_IMAGE_SIZE].  Every invocation of the
    image script finds [CI_MIN_IMAGE_SIZE] set to [str(image_size)], [ARCH],
    [DEBUG] and, on the Galileo, [VARIANT]; [MIN_IMAGE_SIZE] is whatever the
    build process inherited.  A run that returns 0 has invoked the script. *)
Theorem image_script_environment h recipe w pf :
  resolve (imagescriptdir_of (cwd w)) (platform recipe) = Some pf ->
  exists evs,
    log (snd (main h recipe w)) = log w ++ evs /\
    (forall dir env status,
        In (EvSystem dir env (image_command pf) status) evs ->
        env !! "CI_MIN_IMAGE_SIZE" = Some (Py.str_int (image_size recipe)) /\
        env !! "MIN_IMAGE_SIZE" = environ w !! "MIN_IMAGE_SIZE" /\
        env !! "ARCH"
        = Some (if String.eqb (arch pf) "x86q" then "x86" else arch pf) /\
        env !! "VARIANT"
        = (if String.eqb (arch pf) "x86q" then Some "q"
           else environ w !! "VARIANT") /\
        env !! "DEBUG" = Some "dbg") /\
    (fst (main h recipe w) = Ok 0 ->
     exists dir env status, In (EvSystem dir env (image_command pf) status) evs).
Proof.
  intros Hpf.
  destruct (main_image_env h recipe w pf Hpf) as (evs & Hlog & Henv & Hok).
  exists evs. repeat split; try assumption;
    try (intros Hret; apply in_commands; rewrite (Hok Hret);
         apply image_command_in_plan);
    rewrite (Henv _ _ _ H).
  - apply image_env_size.
  - apply image_env_other; discriminate.
  - apply image_env_arch.
  - apply image_env_variant.
  - apply image_env_debug.
Qed.

Lemma image_script_environment_witness :
  exists dir env status,
    In (EvSystem dir env (image_command (rpi_profile "/build/tasks")) status)
       (log (snd (main obliging rpi_recipe start))) /\
    env !! "CI_MIN_IMAGE_SIZE" = Some "536870912" /\
    env !! "MIN_IMAGE_SIZE" = None.
Proof.
  destruct (image_script_environment obliging rpi_recipe start
              (rpi_profile "/build/tasks") eq_refl)
    as (evs & Hlog & Henv & Hrun).
  change (log start ++ evs) with evs in Hlog.
  destruct Hrun as (d & v & st & Hin); [vm_compute; reflexivity|].
  destruct (Henv d v st Hin) as (Hsize & Hmin & _).
  exists d, v, st. rewrite Hlog. split; [exact Hin|].
  split; [exact Hsize | exact Hmin].
Defined.

(** C2 as stated fails: on the Raspberry Pi recipe, started with an empty
    environment, the image script is invoked and its environment holds no
    variable named [MIN_IMAGE_SIZE]. *)
Lemma min_image_size_is_not_set :
  ~ (forall dir env status,
        In (EvSystem dir env (image_command (rpi_profile "/build/tasks"))
              status)
           (log (snd (main obliging rpi_recipe start))) ->
        is_Some (env !! "MIN_IMAGE_SIZE")).
Proof.
  intros Hclaim.
  destruct (main_image_env obliging rpi_recipe start
              (rpi_profile "/build/tasks") eq_refl)
    as (evs & Hlog & Henv & Hok).
  change (log start ++ evs) with evs in Hlog.
  assert (Hin : In (image_command (rpi_profile "/build/tasks")) (commands evs)).
  { rewrite Hok by (vm_compute; reflexivity). apply image_command_in_plan. }
  apply in_commands in Hin. destruct Hin as (d & v & st & Hin).
  pose proof (Henv d v st Hin) as Hv.
  rewrite <- Hlog in Hin. specialize (Hclaim d v st Hin).
  rewrite Hv, image_env_other in Hclaim by discriminate.
  destruct Hclaim as [x Hx]. discriminate Hx.
Qed.

(* ===================================================================== *)
(** ** The Raspberry Pi recipe, end to end *)
(* ===================================================================== *)

(** C7: on the recipe [{platform: "Raspberry Pi", package_list: ["vim"],
    user_list: [], image_size: 536870912}] the platform chain binds the
    architecture [armv6], the script [build_rpi.sh] and the image [rpi.img];
    every invocation of that script finds [ARCH] set to [armv6]; and a run
    that returns 0 ends with the script, the renaming of [rpi.img] to
    [minocaos.img], its compression into [minocaos.tar.gz] and the upload. *)
Theorem raspberry_pi_end_to_end h w :
  let pf := rpi_profile (cwd w) in
  resolve (imagescriptdir_of (cwd w)) (platform rpi_recipe) = Some pf /\
  arch pf = "armv6" /\
  image_script pf = Py.join (imagescriptdir_of (cwd w)) ["build_rpi.sh"] /\
  image pf = "rpi.img" /\
  exists evs,
    log (snd (main h rpi_recipe w)) = log w ++ evs /\
    (forall dir env status,
        In (EvSystem dir env (image_command pf) status) evs ->
        env !! "ARCH" = Some "armv6") /\
    (fst (main h rpi_recipe w) = Ok 0 ->
     exists before,
       commands evs
       = before ++ [image_command pf;
                    "mv 'rpi.img' minocaos.img";
                    "tar -czf minocaos.tar.gz ./minocaos.img";
                    upload_command]).
Proof.
  intros pf. repeat (split; [reflexivity|]).
  destruct (main_image_env h rpi_recipe w pf eq_refl)
    as (evs & Hlog & Henv & Hok).
  exists evs. split; [exact Hlog|]. split.
  - intros d v st Hin. rewrite (Henv d v st Hin), image_env_arch. reflexivity.
  - intros Hret. rewrite (Hok Hret). unfold main_plan.
    rewrite !app_assoc. eexists. reflexivity.
Qed.

Lemma raspberry_pi_end_to_end_witness :
  fst (main obliging rpi_recipe start) = Ok 0 /\
  exists before,
    commands (log (snd (main obliging rpi_recipe start)))
    = before ++ ["sh '/build/tasks/../../tasks/images/build_rpi.sh'";
                 "mv 'rpi.img' minocaos.img";
                 "tar -czf minocaos.tar.gz ./minocaos.img";
                 "python ../../../client.py --upload schedule minocaos.tar.gz minocaos.tar.gz"].
Proof.
  assert (Hret : fst (main obliging rpi_recipe start) = Ok 0)
    by (vm_compute; reflexivity).
  split; [exact Hret|].
  destruct (raspberry_pi_end_to_end obliging start)
    as (_ & _ & _ & _ & evs & Hlog & _ & Hok).
  change (log start ++ evs) with evs in Hlog. rewrite Hlog.
  exact (Hok Hret).
Defined.

(* ===================================================================== *)
(** ** Package installation *)
(* ===================================================================== *)

(** The one event of a log that is not [fine] is where the log says it is. *)
Lemma unfine_position E pre' :
  forall pre x post y z,
    pre ++ x :: post = pre' ++ [y; z] ->
    ~ fine E x -> Forall (fine E) pre' -> fine E z ->
    pre = pre' /\ x = y /\ post = [z].
Proof.
  induction pre' as [|p pre' IH]; intros pre x post y z Heq Hx Hpre Hz.
  - destruct pre as [|a pre]; simpl in Heq.
    + injection Heq as -> ->. auto.
    + injection Heq as -> Heq. destruct pre as [|b pre]; simpl in Heq.
      * injection Heq as -> _. contradiction.
      * injection Heq as _ Heq. destruct pre; discriminate Heq.
  - inversion Hpre as [|? ? Hp Hpre']; subst.
    destruct pre as [|a pre]; simpl in Heq.
    + injection Heq as -> _. contradiction.
    + injection Heq as -> Heq.
      destruct (IH pre x post y z Heq Hx Hpre' Hz) as (-> & -> & ->). auto.
Qed.

(** A computation issues a prefix of its plan, and a command that fails is
    the last one: the run ends in [exit(1)] right after reporting it. *)
Lemma trace_post_fail_fast E {A} plan (a : A) w out :
  trace_post E plan a w out ->
  exists evs, log (snd out) = log w ++ evs /\
    (exists rest, plan = commands evs ++ rest) /\
    (forall pre dir env command status post,
        evs = pre ++ EvSystem dir env command status :: post ->
        failed status = true ->
        fst out = Exit 1 /\ exists msg, post = [EvPrint msg]).
Proof.
  intros (evs & Hlog & H). exists evs. split; [exact Hlog|].
  assert (Hbad : forall d v c st, failed st = true ->
                                  ~ fine E (EvSystem d v c st)).
  { intros d v c st Hst [Hok _]. congruence. }
  assert (Hnone : forall pre d v c st post,
             Forall (fine E) (pre ++ EvSystem d v c st :: post) ->
             failed st = true -> False).
  { intros pre d v c st post Hf Hst. apply Forall_app in Hf.
    destruct Hf as [_ Hf]. inversion Hf; subst. eapply Hbad; eauto. }
  destruct (fst out) as [a'|code|e].
  - destruct H as (_ & <- & Hf). split.
    + exists []. rewrite app_nil_r. reflexivity.
    + intros pre d v c st post -> Hst. exfalso. eauto.
  - destruct H as (-> & pre' & d' & v' & c' & st' & msg & rest & -> & Hst'
                   & _ & Hpre & ->).
    split.
    + exists rest. rewrite commands_app, <- app_assoc. reflexivity.
    + intros pre d v c st post Heq Hst.
      destruct (unfine_position E pre' pre _ post _ _ (eq_sym Heq))
        as (_ & _ & ->); eauto. exact I.
  - destruct H as (Hf & Hrest). split; [exact Hrest|].
    intros pre d v c st post -> Hst. exfalso. eauto.
Qed.






Definition pc_appsdir : string :=
  appsdir_of "/build/tasks" (pc_profile "/build/tasks").

Definition pc_args : string := opkg_args "/build/tasks" "x86" pc_appsdir.


(* ===================================================================== *)
(** ** Strings *)
(* ===================================================================== *)

(** stdpp keeps [simpl] from unfolding string concatenation; these are its
    two equations. *)
Lemma append_nil (b : string) : (EmptyString ++ b)%string = b.
Proof. reflexivity. Qed.

Lemma append_cons (x : ascii) (a b : string) :
  (String x a ++ b)%string = String x (a ++ b)%string.
Proof. reflexivity. Qed.

Lemma string_app_assoc (a b c : string) :
  ((a ++ b) ++ c = a ++ b ++ c)%string.
Proof.
  induction a as [|x a IH]; [reflexivity|].
  rewrite !append_cons, IH. reflexivity.
Qed.


Lemma ends_with_slash_app (a b : string) :
  b <> EmptyString ->
  Py.ends_with_slash (a ++ b)%string = Py.ends_with_slash b.
Proof.
  intros Hb. induction a as [|x a IH]; [reflexivity|].
  rewrite append_cons. cbn [Py.ends_with_slash]. rewrite IH.
  destruct (a ++ b)%string eqn:Hab; [|reflexivity].
  destruct a; [rewrite append_nil in Hab; congruence | discriminate Hab].
Qed.

Lemma app_not_empty (a b : string) :
  b <> EmptyString -> String.eqb (a ++ b)%string EmptyString = false.
Proof.
  intros Hb. destruct a; [|reflexivity].
  rewrite append_nil. destruct b; [congruence | reflexivity].
Qed.

(* ===================================================================== *)
(** ** User provisioning: the UID counter *)
(* ===================================================================== *)

(** Quoting never turns a name into [root], nor [root] into anything
    else. *)
Lemma quote_root (s : string) :
  String.eqb (Py.quote s) "root" = String.eqb s "root".
Proof.
  unfold Py.quote. destruct (Py.all_safe s) eqn:Hsafe.
  - destruct (String.eqb_spec s EmptyString) as [-> | _]; reflexivity.
  - destruct (String.eqb_spec s "root") as [-> | _]; [discriminate Hsafe|].
    reflexivity.
Qed.

(** The specification's account of the UIDs: [root] has UID 0, and a user
    other than [root] has 1000 plus the number of such users before it in
    [user_list]. *)
Definition is_root (user : UserSpec) : bool :=
  String.eqb (username user) "root".

Definition spec_uid (before : list UserSpec) (user : UserSpec) : Z :=
  if is_root user then 0
  else 1000 + Z.of_nat (length (List.filter (fun u => negb (is_root u)) before)).

(** The decimal numeral of a number, as the standard library prints it. *)
Definition decimal (n : Z) : string :=
  DecimalString.NilZero.string_of_int (Z.to_int n).

(** The number a decimal numeral denotes, as the standard library reads
    it. *)
Definition numeral_value (s : string) : option Z :=
  option_map Z.of_int (DecimalString.NilZero.int_of_string s).

(** The [useradd] command line the specification expects for a user, letter
    by letter: the root directory, the quoted comment, [-mU], the home
    option, [-u] followed by the decimal numeral of the UID, the quoted
    password if and only if [enable_password] is set, and the quoted
    name. *)
Definition spec_useradd (appsdir home_option : string) (uid : Z)
    (user : UserSpec) : string :=
  ("useradd --root=" ++ dq ++ appsdir ++ dq
   ++ " --comment=" ++ Py.quote (decoded (gecos user))
   ++ " -mU " ++ home_option
   ++ " -u" ++ decimal uid
   ++ (if enable_password user
       then " --password=" ++ Py.quote (decoded (password user)) ++ " "
       else EmptyString)
   ++ " " ++ Py.quote (username user) ++ " ")%string.

(** The [userdel] command line it expects for [root]. *)
Definition spec_userdel (appsdir : string) : string :=
  ("userdel --root=" ++ dq ++ appsdir ++ dq ++ " root")%string.

(** The account commands the specification expects for one user: [root] is
    deleted and created anew with home [/root] and UID 0; every other user
    is created with its [spec_uid]. *)
Definition spec_user_commands (appsdir : string) (before : list UserSpec)
    (user : UserSpec) : list string :=
  if is_root user
  then [spec_userdel appsdir; spec_useradd appsdir "--home=/root" 0 user]
  else [spec_useradd appsdir EmptyString (spec_uid before user) user].

Fixpoint spec_users_commands (appsdir : string) (before users : list UserSpec)
  : list string :=
  match users with
  | [] => []
  | user :: rest =>
      spec_user_commands appsdir before user
      ++ spec_users_commands appsdir (before ++ [user]) rest
  end.

(** The command line the code builds is the one the specification
    spells. *)
Lemma useradd_command_text appsdir extra_args id (user : UserSpec) :
  useradd_command appsdir (Py.quote (decoded (gecos user))) extra_args id
    (enable_password user) (Py.quote (decoded (password user)))
    (Py.quote (username user))
  = spec_useradd appsdir extra_args id user.
Proof.
  unfold useradd_command, useradd_options, spec_useradd, decimal, Py.fmt_d,
    Py.str_int.
  destruct (enable_password user); rewrite !string_app_assoc; reflexivity.
Qed.

(** A decimal numeral reads back as the number it was printed from, so two
    numbers with one numeral are equal. *)
Lemma decimal_value (n : Z) : numeral_value (decimal n) = Some n.
Proof.
  unfold numeral_value, decimal.
  rewrite DecimalString.NilZero.isi.
  - simpl. rewrite DecimalZ.of_to. reflexivity.
  - destruct n; simpl; try discriminate.
    intros H. injection H as H.
    exact (DecimalPos.Unsigned.to_uint_nonnil _ H).
  - destruct n; simpl; try discriminate.
    intros H. injection H as H.
    exact (DecimalPos.Unsigned.to_uint_nonnil _ H).
Qed.

Lemma decimal_inj (n m : Z) : decimal n = decimal m -> n = m.
Proof.
  intros H. apply (f_equal numeral_value) in H.
  rewrite !decimal_value in H. congruence.
Qed.

(** The counter of the code is the count of the specification, and the
    command lines of the code are those the specification spells. *)
Lemma users_plan_spec appsdir users :
  forall before,
    users_plan appsdir
      (1000 + Z.of_nat (length (List.filter (fun u => negb (is_root u)) before)))
      users
    = spec_users_commands appsdir before users.
Proof.
  induction users as [|user users IH]; intros before; simpl; [reflexivity|].
  f_equal.
  - unfold user_plan, spec_user_commands, spec_uid, is_root.
    rewrite quote_root, !useradd_command_text.
    destruct (String.eqb (username user) "root"); reflexivity.
  - rewrite <- IH. f_equal.
    unfold user_next_id. rewrite quote_root, List.filter_app, length_app.
    cbn [List.filter]. unfold is_root.
    destruct (String.eqb (username user) "root"); cbn [negb length]; lia.
Qed.

(** C1: on a known platform the account commands of a run are, in
    [user_list] order, the command lines of the specification: each user
    other than [root] is created by a [useradd] line that carries [-u] and
    the decimal numeral of 1000 plus the number of such users before it,
    [root] by one that carries [-u0], wherever it stands in the list.  Every
    run issues a prefix of these lines, and a run that returns 0 all of
    them.  The numeral after [-u] reads back as the UID. *)
Theorem uids_are_sequential_from_1000 h recipe w pf :
  resolve (imagescriptdir_of (cwd w)) (platform recipe) = Some pf ->
  let appsdir := appsdir_of (cwd w) pf in
  let plan :=
    populate_plan appsdir
    ++ packages_plan (cwd w) (arch pf) appsdir (package_list recipe)
    ++ spec_users_commands appsdir [] (user_list recipe)
    ++ final_plan pf in
  (exists evs,
      log (snd (main h recipe w)) = log w ++ evs /\
      (exists rest, plan = commands evs ++ rest) /\
      (fst (main h recipe w) = Ok 0 -> commands evs = plan)) /\
  (forall uid, numeral_value (decimal uid) = Some uid).
Proof.
  intros Hpf appsdir plan. split; [|exact decimal_value].
  assert (Hplan : plan = main_plan (cwd w) pf recipe).
  { unfold plan, main_plan. rewrite <- (users_plan_spec appsdir _ []).
    reflexivity. }
  rewrite Hplan.
  destruct (trace_post_fail_fast _ _ _ _ _ (main_trace h recipe w pf Hpf))
    as (evs & Hlog & Hrest & _).
  exists evs. split; [exact Hlog|]. split; [exact Hrest|].
  intros Hret.
  destruct (main_image_env h recipe w pf Hpf) as (evs' & Hlog' & _ & Hok).
  rewrite Hlog in Hlog'. apply app_inv_head in Hlog'. subst evs'.
  exact (Hok Hret).
Qed.

Definition user_root : UserSpec :=
  mkUser "root" "Um9vdA==" false EmptyString EmptyString.
Definition user_alice : UserSpec :=
  mkUser "alice" "QWxpY2U=" true "c2VjcmV0" EmptyString.
Definition user_bob : UserSpec :=
  mkUser "bob" "Qm9i" false EmptyString EmptyString.

Definition accounts (users : list UserSpec) : Recipe :=
  mkRecipe "PC" [] users 1024.

(** The command lines of root, alice and bob, letter by letter. *)
Definition pc_root : string :=
  ("useradd --root=" ++ dq ++ "/build/x86/bin/apps" ++ dq)%string.
Definition line_del_root : string :=
  ("userdel --root=" ++ dq ++ "/build/x86/bin/apps" ++ dq ++ " root")%string.
Definition line_add_root : string :=
  (pc_root ++ " --comment=Root -mU --home=/root -u0 root ")%string.
Definition line_add_alice (uid_text : string) : string :=
  (pc_root ++ " --comment=Alice -mU  -u" ++ uid_text
   ++ " --password=secret  alice ")%string.
Definition line_add_bob (uid_text : string) : string :=
  (pc_root ++ " --comment=Bob -mU  -u" ++ uid_text ++ " bob ")%string.

(** With [root, alice, bob], and with [alice, root, bob], alice is created
    with [-u1000] and bob with [-u1001]. *)
Lemma uids_are_sequential_from_1000_witness :
  let setup := populate_plan pc_appsdir ++ [update_command pc_args] in
  commands (log (snd (main obliging (accounts [user_root; user_alice; user_bob])
                        start)))
  = setup
    ++ [line_del_root; line_add_root;
        line_add_alice "1000"; line_add_bob "1001"]
    ++ final_plan (pc_profile "/build/tasks")
  /\
  commands (log (snd (main obliging (accounts [user_alice; user_root; user_bob])
                        start)))
  = setup
    ++ [line_add_alice "1000"; line_del_root; line_add_root;
        line_add_bob "1001"]
    ++ final_plan (pc_profile "/build/tasks").
Proof.
  intros setup. split.
  - destruct (uids_are_sequential_from_1000 obliging
                (accounts [user_root; user_alice; user_bob]) start
                (pc_profile "/build/tasks") eq_refl)
      as ((evs & Hlog & _ & Hok) & _).
    change (log start ++ evs) with evs in Hlog. rewrite Hlog.
    rewrite Hok by (vm_compute; reflexivity).
    vm_compute. reflexivity.
  - destruct (uids_are_sequential_from_1000 obliging
                (accounts [user_alice; user_root; user_bob]) start
                (pc_profile "/build/tasks") eq_refl)
      as ((evs & Hlog & _ & Hok) & _).
    change (log start ++ evs) with evs in Hlog. rewrite Hlog.
    rewrite Hok by (vm_compute; reflexivity).
    vm_compute. reflexivity.
Defined.

(* ===================================================================== *)
(** ** User provisioning: one turn of the loop *)
(* ===================================================================== *)

Lemma bind_ok {A B} (m : M A) (k : A -> M B) w b w' :
  bind m k w = (Ok b, w') ->
  exists a w1, m w = (Ok a, w1) /\ k a w1 = (Ok b, w').
Proof.
  unfold bind. destruct (m w) as [[a|code|e] w1]; try discriminate.
  intros H. exists a, w1. auto.
Qed.

Lemma ret_ok {A} (a b : A) w w' : ret a w = (Ok b, w') -> b = a /\ w' = w.
Proof. unfold ret. intros H. injection H as -> ->. auto. Qed.

Lemma os_call_ok h e w u w' :
  os_call h e w = (Ok u, w') -> log w' = log w ++ [e].
Proof.
  unfold os_call. destruct (permits h w e); [|discriminate].
  intros H. injection H as _ <-. reflexivity.
Qed.

Lemma b64decode_ok s w data w' :
  b64decode s w = (Ok data, w') -> w' = w /\ data = decoded s.
Proof.
  unfold b64decode, decoded. destruct (Py.b64decode s); [|discriminate].
  intros H. apply ret_ok in H. destruct H as [-> ->]. auto.
Qed.

Lemma decode_ascii_ok data w u w' :
  decode_ascii data w = (Ok u, w') -> w' = w /\ Py.is_ascii data = true.
Proof.
  unfold decode_ascii. destruct (Py.is_ascii data); [|discriminate].
  intros H. apply ret_ok in H. destruct H as [_ ->]. auto.
Qed.

Lemma run_ok h dir command w u w' :
  run h dir command w = (Ok u, w') ->
  exists status,
    failed status = false /\
    log w' = log w ++ [EvChdir dir;
                       EvSystem (Py.join2 (cwd w) dir) (environ w) command
                         status].
Proof.
  unfold run, chdir, os_call, system, print, emit, exit, bind, ret.
  destruct (permits h w (EvChdir dir)); [|discriminate]. simpl.
  match goal with
  | |- context [failed ?st] => destruct (failed st) eqn:Hst; [discriminate|]
  end.
  intros H. injection H as _ <-. eexists. split; [exact Hst|].
  simpl. rewrite <- app_assoc. reflexivity.
Qed.

Lemma bind_eq_ok {A B} (m : M A) (k : A -> M B) w a w1 :
  m w = (Ok a, w1) -> bind m k w = k a w1.
Proof. intros H. unfold bind. rewrite H. reflexivity. Qed.

Lemma bind_eq_raise {A B} (m : M A) (k : A -> M B) w e w1 :
  m w = (Raise e, w1) -> bind m k w = (Raise e, w1).
Proof. intros H. unfold bind. rewrite H. reflexivity. Qed.

Lemma run_on_success h dir command w :
  permits h w (EvChdir dir) = true ->
  failed (system_status h
            (mkWorld (Py.join2 (cwd w) dir) (environ w)
               (log w ++ [EvChdir dir])) command) = false ->
  run h dir command w
  = (Ok tt,
     mkWorld (Py.join2 (cwd w) dir) (environ w)
       (log w ++ [EvChdir dir;
                  EvSystem (Py.join2 (cwd w) dir) (environ w) command
                    (system_status h
                       (mkWorld (Py.join2 (cwd w) dir) (environ w)
                          (log w ++ [EvChdir dir])) command)])).
Proof.
  intros Hdir Hst.
  unfold run, chdir, os_call, system, print, emit, exit, bind, ret.
  rewrite Hdir. cbn [cwd environ log]. rewrite Hst.
  rewrite <- app_assoc. reflexivity.
Qed.

(** The calls that install the authorized keys of a user. *)
Definition key_events (appsdir name : string) (id : Z) (keys : string)
  : list Event :=
  let dotssh := Py.join appsdir ["home"; name; ".ssh"] in
  let keyspath := Py.join dotssh ["authorized_keys"] in
  [EvMkdir dotssh; EvOpen keyspath "w"; EvWrite keyspath keys;
   EvChmod keyspath 384; EvChown keyspath id id;
   EvChmod dotssh 509; EvChown dotssh id id].

(** The UID [add_user] gives a user. *)
Definition user_id (next_id : Z) (user : UserSpec) : Z :=
  if String.eqb (Py.quote (username user)) "root" then 0 else next_id.

Lemma no_keys h appsdir name id user w :
  Py.b64decode (ssh_authorized_keys user) = Some EmptyString ->
  add_authorized_keys h appsdir name id user w = (Ok tt, w).
Proof.
  intros Hkeys. unfold add_authorized_keys, b64decode, bind.
  rewrite Hkeys. reflexivity.
Qed.

Lemma keys_ok h appsdir name id user w u w' :
  add_authorized_keys h appsdir name id user w = (Ok u, w') ->
  decoded (ssh_authorized_keys user) <> EmptyString ->
  log w' = log w
           ++ key_events appsdir name id (decoded (ssh_authorized_keys user)).
Proof.
  intros H Hkeys. unfold add_authorized_keys in H.
  apply bind_ok in H. destruct H as (keys & w0 & Hdec & H).
  apply b64decode_ok in Hdec. destruct Hdec as [-> ->].
  destruct (decoded (ssh_authorized_keys user)) as [|c keys] eqn:Hk;
    [congruence|].
  cbn [String.length Nat.eqb negb] in H.
  repeat (apply bind_ok in H; destruct H as (? & ? & ? & H)).
  repeat match goal with
         | Hc : os_call _ _ _ = _ |- _ => apply os_call_ok in Hc
         end.
  unfold key_events.
  repeat match goal with
         | Hc : log _ = _ |- _ => rewrite Hc; clear Hc
         end.
  rewrite <- !app_assoc. reflexivity.
Qed.

(** A call that belongs to the running of a command. *)
Definition command_event (e : Event) : Prop :=
  match e with
  | EvChdir _ | EvSystem _ _ _ _ | EvPrint _ => True
  | _ => False
  end.

(** A turn of the user loop that completes has run the commands of
    [user_plan], and then installed the keys, if any, under
    [home/<quoted name>]. *)
Lemma add_user_ok h appsdir user next_id w n' w' :
  add_user h appsdir user next_id w = (Ok n', w') ->
  exists evs,
    commands evs = user_plan appsdir next_id user /\
    Forall command_event evs /\
    log w'
    = log w ++ evs
      ++ (if String.eqb (decoded (ssh_authorized_keys user)) EmptyString
          then []
          else key_events appsdir (Py.quote (username user))
                 (user_id next_id user)
                 (decoded (ssh_authorized_keys user))).
Proof.
  intros H. unfold add_user in H.
  apply bind_ok in H. destruct H as (g & w1 & Hg & H).
  apply b64decode_ok in Hg. destruct Hg as [-> ->].
  apply bind_ok in H. destruct H as (p & w2 & Hp & H).
  apply b64decode_ok in Hp. destruct Hp as [-> ->].
  apply bind_ok in H. destruct H as (ia & w3 & Hia & H).
  apply bind_ok in H. destruct H as (u3' & w3' & Hascii & H).
  apply decode_ascii_ok in Hascii. destruct Hascii as [-> _].
  apply bind_ok in H. destruct H as (u4 & w4 & Hrun & H).
  apply bind_ok in H. destruct H as (u5 & w5 & Hkeys & H).
  apply ret_ok in H. destruct H as [_ ->].
  apply run_ok in Hrun. destruct Hrun as (st & _ & Hlog4).
  assert (Hlog5 :
    log w5 = log w4
      ++ (if String.eqb (decoded (ssh_authorized_keys user)) EmptyString
          then []
          else key_events appsdir (Py.quote (username user)) (fst ia)
                 (decoded (ssh_authorized_keys user)))).
  { destruct (String.eqb_spec (decoded (ssh_authorized_keys user)) EmptyString)
      as [Hempty | Hfull].
    - unfold add_authorized_keys, bind in Hkeys.
      destruct (b64decode (ssh_authorized_keys user) w4)
        as [[keys|code|e] w6] eqn:Hdec; try discriminate.
      apply b64decode_ok in Hdec. destruct Hdec as [-> ->].
      rewrite Hempty in Hkeys. apply ret_ok in Hkeys.
      destruct Hkeys as [_ ->]. rewrite app_nil_r. reflexivity.
    - apply (keys_ok _ _ _ _ _ _ _ _ Hkeys Hfull). }
  unfold user_plan, user_id.
  destruct (String.eqb (Py.quote (username user)) "root").
  - apply bind_ok in Hia. destruct Hia as (u3 & w2' & Hdel & Hia).
    apply ret_ok in Hia. destruct Hia as [-> ->].
    apply run_ok in Hdel. destruct Hdel as (st' & _ & Hlog3).
    match type of Hlog3 with _ = _ ++ ?e1 =>
      match type of Hlog4 with _ = _ ++ ?e2 => exists (e1 ++ e2) end
    end.
    split; [reflexivity|]. split; [repeat constructor|].
    rewrite Hlog5, Hlog4, Hlog3, <- !app_assoc. reflexivity.
  - apply ret_ok in Hia. destruct Hia as [-> ->].
    match type of Hlog4 with _ = _ ++ ?e2 => exists e2 end.
    split; [reflexivity|]. split; [repeat constructor|].
    rewrite Hlog5, Hlog4, <- !app_assoc. reflexivity.
Qed.

(** *** Paths *)

(** Joining a relative component onto a path that ends in a known
    non-empty piece. *)
Lemma join2_relative (a b c : string) :
  b <> EmptyString -> Py.ends_with_slash b = false ->
  Py.starts_with_slash c = false ->
  Py.join2 (a ++ b)%string c = (a ++ b ++ "/" ++ c)%string.
Proof.
  intros Hb Hend Hc. unfold Py.join2.
  rewrite Hc, (app_not_empty a b Hb), (ends_with_slash_app a b Hb), Hend.
  simpl. apply string_app_assoc.
Qed.

(** The apps directory is a path that ends in [apps]. *)
Lemma appsdir_shape (binroot : string) :
  exists prefix, Py.join binroot ["apps"] = (prefix ++ "apps")%string.
Proof.
  unfold Py.join. simpl. unfold Py.join2. simpl.
  destruct (String.eqb binroot EmptyString || Py.ends_with_slash binroot)%bool.
  - exists binroot. reflexivity.
  - exists (binroot ++ "/")%string. rewrite string_app_assoc. reflexivity.
Qed.

(** Where the keys of a user go, for a name that is a plain relative path
    component. *)
Lemma dotssh_path (binroot name : string) :
  name <> EmptyString ->
  Py.starts_with_slash name = false ->
  Py.ends_with_slash name = false ->
  Py.join (Py.join binroot ["apps"]) ["home"; name; ".ssh"]
  = (Py.join binroot ["apps"] ++ "/home/" ++ name ++ "/.ssh")%string.
Proof.
  intros Hne Hstart Hend.
  destruct (appsdir_shape binroot) as [prefix ->].
  unfold Py.join. cbn [fold_left].
  rewrite (join2_relative prefix "apps" "home")
    by (reflexivity || discriminate).
  replace (prefix ++ "apps" ++ "/" ++ "home")%string
    with ((prefix ++ "apps") ++ "/home")%string
    by (rewrite string_app_assoc; reflexivity).
  rewrite (join2_relative (prefix ++ "apps") "/home" name)
    by (assumption || reflexivity || discriminate).
  replace ((prefix ++ "apps") ++ "/home" ++ "/" ++ name)%string
    with (((prefix ++ "apps") ++ "/home/") ++ name)%string
    by (rewrite !string_app_assoc; reflexivity).
  rewrite (join2_relative ((prefix ++ "apps") ++ "/home/") name ".ssh")
    by (assumption || reflexivity).
  rewrite !string_app_assoc. reflexivity.
Qed.



Lemma in_key_events_mkdir appsdir name id keys path :
  In (EvMkdir path) (key_events appsdir name id keys) ->
  path = Py.join appsdir ["home"; name; ".ssh"].
Proof.
  unfold key_events. simpl.
  intros [H | [H | [H | [H | [H | [H | [H | []]]]]]]]; try discriminate H.
  injection H as <-. reflexivity.
Qed.

Lemma not_command_event_mkdir evs path :
  Forall command_event evs -> ~ In (EvMkdir path) evs.
Proof.
  intros Hall Hin. rewrite List.Forall_forall in Hall.
  exact (Hall _ Hin).
Qed.

(** *** The calls of one turn *)

(** Computations that only run commands. *)
Definition only_commands {A} (m : M A) : Prop :=
  forall w, exists evs,
    log (snd (m w)) = log w ++ evs /\ Forall command_event evs.

Lemma only_ret {A} (a : A) : only_commands (ret a).
Proof. intros w. exists []. simpl. rewrite app_nil_r. auto. Qed.

Lemma only_bind {A B} (m : M A) (k : A -> M B) :
  only_commands m -> (forall a, only_commands (k a)) ->
  only_commands (bind m k).
Proof.
  intros Hm Hk w. unfold bind. destruct (Hm w) as (evs1 & Hlog1 & Hall1).
  destruct (m w) as [[a|code|e] w1]; simpl in *; eauto.
  destruct (Hk a w1) as (evs2 & Hlog2 & Hall2).
  exists (evs1 ++ evs2). rewrite Hlog2, Hlog1, app_assoc.
  split; [reflexivity|]. apply Forall_app; split; assumption.
Qed.

Lemma only_b64decode s : only_commands (b64decode s).
Proof.
  intros w. exists []. unfold b64decode.
  destruct (Py.b64decode s); simpl; rewrite app_nil_r; auto.
Qed.

Lemma only_decode_ascii data : only_commands (decode_ascii data).
Proof.
  intros w. exists []. unfold decode_ascii.
  destruct (Py.is_ascii data); simpl; rewrite app_nil_r; auto.
Qed.

Lemma only_run h dir command : only_commands (run h dir command).
Proof.
  intros w. unfold run, chdir, os_call, system, print, emit, exit, bind, ret.
  destruct (permits h w (EvChdir dir)); simpl.
  - match goal with
    | |- context [failed ?st] => destruct (failed st)
    end; simpl; eexists; rewrite <- !app_assoc;
      (split; [reflexivity | repeat constructor]).
  - exists [EvChdir dir]. split; [reflexivity | repeat constructor].
Qed.

(** C8: for a user whose [ssh_authorized_keys] decodes to the empty string
    the key-installation step does nothing at all, and every call of that
    user's turn belongs to the running of a command: no directory is made,
    no file opened, written, or given a mode or an owner. *)
Theorem empty_keys_install_nothing h appsdir user next_id w :
  Py.b64decode (ssh_authorized_keys user) = Some EmptyString ->
  (forall name id w1,
      add_authorized_keys h appsdir name id user w1 = (Ok tt, w1)) /\
  exists evs,
    log (snd (add_user h appsdir user next_id w)) = log w ++ evs /\
    Forall command_event evs.
Proof.
  intros Hkeys. split.
  - intros name id w1. apply no_keys. exact Hkeys.
  - revert w. change (only_commands (add_user h appsdir user next_id)).
    unfold add_user.
    apply only_bind; [apply only_b64decode | intros g].
    apply only_bind; [apply only_b64decode | intros p].
    apply only_bind.
    { destruct (String.eqb (Py.quote (username user)) "root").
      - apply only_bind; [apply only_run | intros _; apply only_ret].
      - apply only_ret. }
    intros ia.
    apply only_bind; [apply only_decode_ascii | intros _].
    apply only_bind; [apply only_run | intros _].
    apply only_bind; [|intros _; apply only_ret].
    intros w1. rewrite (no_keys _ _ _ _ _ _ Hkeys).
    exists []. simpl. rewrite app_nil_r. auto.
Qed.

Lemma empty_keys_install_nothing_witness :
  exists evs,
    log (snd (add_user obliging pc_appsdir user_bob 1000 start)) = evs /\
    Forall command_event evs.
Proof.
  destruct (empty_keys_install_nothing obliging pc_appsdir user_bob 1000 start)
    as (_ & evs & Hlog & Hall).
  - vm_compute. reflexivity.
  - exists evs. split; [exact Hlog | exact Hall].
Defined.

Lemma commands_key_events appsdir name id keys :
  commands
    (if String.eqb keys EmptyString then []
     else key_events appsdir name id keys) = [].
Proof. destruct (String.eqb keys EmptyString); reflexivity. Qed.

(** The account commands of a turn of the user loop that completes, spelled
    as the specification spells them. *)
Lemma add_user_ok_lines h appsdir user next_id w n' w' :
  add_user h appsdir user next_id w = (Ok n', w') ->
  exists evs,
    log w' = log w ++ evs /\
    commands evs
    = if is_root user
      then [spec_userdel appsdir; spec_useradd appsdir "--home=/root" 0 user]
      else [spec_useradd appsdir EmptyString next_id user].
Proof.
  intros Hrun.
  destruct (add_user_ok _ _ _ _ _ _ _ Hrun) as (evs & Hcmds & _ & Hlog).
  eexists. split; [exact Hlog|].
  rewrite commands_app, commands_key_events, app_nil_r, Hcmds.
  unfold user_plan, is_root. rewrite quote_root, !useradd_command_text.
  destruct (String.eqb (username user) "root"); reflexivity.
Qed.

(** C3, as the code has it: the password field is decoded for every user,
    whatever [enable_password] says.  A user whose password field is not
    valid base64 ends the run with the decoding error before any call is
    made for that user.  What depends on [enable_password] is only whether
    the decoded password is put on the [useradd] command line: in a turn
    that completes, that line carries [--password=] and the quoted decoded
    password when the flag is set, and no password otherwise
    ([spec_useradd]). *)
Theorem password_is_always_decoded h appsdir user next_id w :
  (Py.b64decode (password user) = None ->
   exists msg,
     add_user h appsdir user next_id w = (Raise (TypeError msg), w)) /\
  (forall n' w',
      add_user h appsdir user next_id w = (Ok n', w') ->
      Py.b64decode (password user) = Some (decoded (password user)) /\
      exists evs,
        log w' = log w ++ evs /\
        commands evs
        = if is_root user
          then [spec_userdel appsdir;
                spec_useradd appsdir "--home=/root" 0 user]
          else [spec_useradd appsdir EmptyString next_id user]).
Proof.
  split.
  - intros Hpw. unfold add_user, bind, b64decode.
    destruct (Py.b64decode (gecos user)); simpl.
    + rewrite Hpw. eexists. reflexivity.
    + eexists. reflexivity.
  - intros n' w' Hrun. split; [|exact (add_user_ok_lines _ _ _ _ _ _ _ Hrun)].
    unfold decoded. destruct (Py.b64decode (password user)) eqn:Hpw;
      [reflexivity|].
    exfalso. revert Hrun. unfold add_user, bind, b64decode.
    destruct (Py.b64decode (gecos user)); simpl.
    + rewrite Hpw. discriminate.
    + discriminate.
Qed.

(** A user without a password whose password field is the one character
    [a]. *)
Definition user_carol : UserSpec :=
  mkUser "carol" "Q2Fyb2w=" false "a" EmptyString.

(** Carol's turn dies of the decoding; alice, with [enable_password] set, is
    created with [--password=secret]; bob, without it, with no password. *)
Lemma password_is_always_decoded_witness :
  (enable_password user_carol = false /\
   exists msg,
     add_user obliging pc_appsdir user_carol 1000 start
     = (Raise (TypeError msg), start)) /\
  (enable_password user_alice = true /\
   commands (log (snd (add_user obliging pc_appsdir user_alice 1000 start)))
   = [line_add_alice "1000"]) /\
  (enable_password user_bob = false /\
   commands (log (snd (add_user obliging pc_appsdir user_bob 1000 start)))
   = [line_add_bob "1000"]).
Proof.
  split; [|split].
  - split; [reflexivity|].
    destruct (password_is_always_decoded obliging pc_appsdir user_carol 1000
                start) as [Hraise _].
    apply Hraise. vm_compute. reflexivity.
  - split; [reflexivity|].
    destruct (password_is_always_decoded obliging pc_appsdir user_alice 1000
                start) as [_ Hok].
    destruct (Hok 1001 (snd (add_user obliging pc_appsdir user_alice 1000
                               start))) as (_ & evs & Hlog & Hcmds).
    + vm_compute. reflexivity.
    + change (log start ++ evs) with evs in Hlog. rewrite Hlog, Hcmds.
      vm_compute. reflexivity.
  - split; [reflexivity|].
    destruct (password_is_always_decoded obliging pc_appsdir user_bob 1000
                start) as [_ Hok].
    destruct (Hok 1001 (snd (add_user obliging pc_appsdir user_bob 1000
                               start))) as (_ & evs & Hlog & Hcmds).
    + vm_compute. reflexivity.
    + change (log start ++ evs) with evs in Hlog. rewrite Hlog, Hcmds.
      vm_compute. reflexivity.
Defined.

(** C3 as stated fails: carol has [enable_password] false, her other fields
    decode, and the run dies of the decoding of her password; with an empty
    password field the same run returns 0. *)
Lemma disabled_password_is_decoded :
  enable_password user_carol = false /\
  Py.b64decode (gecos user_carol) = Some "Carol" /\
  Py.b64decode (ssh_authorized_keys user_carol) = Some EmptyString /\
  Py.b64decode (password user_carol) = None /\
  fst (main obliging (accounts [user_carol]) start)
  = Raise (TypeError "Incorrect padding") /\
  fst (main obliging
         (accounts [mkUser "carol" "Q2Fyb2w=" false EmptyString EmptyString])
         start)
  = Ok 0.
Proof. repeat split; vm_compute; reflexivity. Qed.

(** *** A turn up to the keys *)

(** The byte string to which line 193 appends the name, for a user. *)
Definition user_options (appsdir : string) (next_id : Z) (user : UserSpec)
  : string :=
  useradd_options appsdir (Py.quote (decoded (gecos user)))
    (if String.eqb (Py.quote (username user)) "root" then "--home=/root"
     else EmptyString)
    (user_id next_id user) (enable_password user)
    (Py.quote (decoded (password user))).



Lemma joined_to_quoted_text text data :
  text <> EmptyString -> joined_to_quoted text data = data.
Proof.
  intros H. unfold joined_to_quoted. apply String.eqb_neq in H.
  rewrite H. reflexivity.
Qed.



(** Computations whose events all satisfy [P]. *)
Definition logs_only (P : Event -> Prop) {A} (m : M A) : Prop :=
  forall w, exists evs, log (snd (m w)) = log w ++ evs /\ Forall P evs.

Lemma logs_only_ret P {A} (a : A) : logs_only P (ret a).
Proof. intros w. exists []. simpl. rewrite app_nil_r. auto. Qed.












(* ===================================================================== *)
(** ** The keys of root *)
(* ===================================================================== *)

(** C4, where the code departs from it: for the user [root], created with
    [--home=/root], a turn that completes and has keys to install makes the
    directory [<appsdir>/home/root/.ssh] and writes the keys there; it makes
    no other directory, so none under [<appsdir>/root]. *)
Theorem root_keys_go_under_home_root h binroot user next_id w n' w' :
  let appsdir := Py.join binroot ["apps"] in
  username user = "root" ->
  decoded (ssh_authorized_keys user) <> EmptyString ->
  add_user h appsdir user next_id w = (Ok n', w') ->
  exists evs,
    log w' = log w ++ evs /\
    commands evs
    = [userdel_command appsdir;
       useradd_command appsdir (Py.quote (decoded (gecos user)))
         "--home=/root" 0 (enable_password user)
         (Py.quote (decoded (password user))) "root"] /\
    In (EvMkdir (appsdir ++ "/home/root/.ssh")%string) evs /\
    In (EvWrite (appsdir ++ "/home/root/.ssh/authorized_keys")%string
          (decoded (ssh_authorized_keys user))) evs /\
    (forall path, In (EvMkdir path) evs ->
                  path = (appsdir ++ "/home/root/.ssh")%string) /\
    (appsdir ++ "/home/root/.ssh")%string <> (appsdir ++ "/root/.ssh")%string.
Proof.
  intros appsdir Hroot Hkeys Hrun.
  destruct (add_user_ok _ _ _ _ _ _ _ Hrun) as (evs & Hcmds & Hall & Hlog).
  apply String.eqb_neq in Hkeys. rewrite Hkeys in Hlog.
  unfold user_plan in Hcmds. rewrite Hroot in Hlog, Hcmds.
  change (Py.quote "root") with "root" in Hlog, Hcmds.
  cbn [String.eqb Ascii.eqb Bool.eqb] in Hcmds.
  assert (Hdot : Py.join appsdir ["home"; "root"; ".ssh"]
                 = (appsdir ++ "/home/root/.ssh")%string).
  { unfold appsdir. rewrite dotssh_path by (reflexivity || discriminate).
    reflexivity. }
  assert (Hkeyspath :
    Py.join (Py.join appsdir ["home"; "root"; ".ssh"]) ["authorized_keys"]
    = (appsdir ++ "/home/root/.ssh/authorized_keys")%string).
  { rewrite Hdot. unfold Py.join. cbn [fold_left].
    rewrite (join2_relative appsdir "/home/root/.ssh" "authorized_keys")
      by (reflexivity || discriminate).
    reflexivity. }
  eexists. split; [exact Hlog|]. split; [|split; [|split; [|split]]].
  - rewrite commands_app, Hcmds. apply app_nil_r.
  - apply in_or_app. right. unfold key_events. rewrite Hdot.
    left. reflexivity.
  - apply in_or_app. right. unfold key_events. rewrite Hkeyspath.
    right. right. left. reflexivity.
  - intros path Hin. apply in_app_or in Hin. destruct Hin as [Hin | Hin].
    + destruct (not_command_event_mkdir _ _ Hall Hin).
    + apply in_key_events_mkdir in Hin. rewrite Hdot in Hin. exact Hin.
  - intros Heq. apply String.app_inj in Heq. discriminate Heq.
Qed.

(** Root with a key to install. *)
Definition user_root_with_key : UserSpec :=
  mkUser "root" "Um9vdA==" false EmptyString "c3NoLXJzYSBBQUFB".

Lemma root_keys_go_under_home_root_witness :
  let calls :=
    log (snd (add_user obliging pc_appsdir user_root_with_key 1000 start)) in
  In (useradd_command pc_appsdir "Root" "--home=/root" 0 false "''" "root")
     (commands calls) /\
  In (EvMkdir "/build/x86/bin/apps/home/root/.ssh") calls /\
  In (EvWrite "/build/x86/bin/apps/home/root/.ssh/authorized_keys"
        "ssh-rsa AAAA") calls /\
  ~ In (EvMkdir "/build/x86/bin/apps/root/.ssh") calls.
Proof.
  intros calls.
  destruct (root_keys_go_under_home_root obliging "/build/x86/bin"
              user_root_with_key 1000 start 1000
              (snd (add_user obliging pc_appsdir user_root_with_key 1000
                      start)))
    as (evs & Hlog & Hcmds & Hmk & Hwr & Honly & _).
  - reflexivity.
  - vm_compute. discriminate.
  - vm_compute. reflexivity.
  - change (log start ++ evs) with evs in Hlog. unfold calls. rewrite Hlog.
    split; [|split; [exact Hmk | split; [exact Hwr|]]].
    + rewrite Hcmds. right. left. reflexivity.
    + intros Hin. apply Honly in Hin. vm_compute in Hin. discriminate Hin.
Defined.

(* ===================================================================== *)
(** ** Further properties of [run] and [main] *)
(* ===================================================================== *)

(** *** The test [run] makes *)

(** A wait status made of an exit code and a terminating signal. *)
Definition wait_status (code signal : Z) : Z := 256 * code + signal.

Lemma failed_wait_status code signal :
  0 <= code < 256 -> 0 <= signal < 128 ->
  failed (wait_status code signal)
  = negb ((code =? 0) && (signal =? 0))%bool.
Proof.
  intros Hcode Hsig. unfold failed, Py.WIFEXITED, Py.WEXITSTATUS, wait_status.
  change 127 with (Z.ones 7). change 255 with (Z.ones 8).
  rewrite !Z.land_ones, Z.shiftr_div_pow2 by lia.
  change (2 ^ 7) with 128. change (2 ^ 8) with 256.
  replace ((256 * code + signal) mod 128) with signal.
  2:{ replace (256 * code + signal) with (signal + (2 * code) * 128) by lia.
      rewrite Z_mod_plus_full, Z.mod_small by lia. reflexivity. }
  replace ((256 * code + signal) / 256) with code.
  2:{ replace (256 * code + signal) with (signal + code * 256) by lia.
      rewrite Z_div_plus_full, Z.div_small by lia. reflexivity. }
  rewrite Z.mod_small by lia.
  destruct (Z.eqb_spec code 0), (Z.eqb_spec signal 0); reflexivity.
Qed.

(** X1: [run] returns only when the command exited with code 0.  When the
    working directory can be entered, the command is run there once; an
    exit code other than 0, or the death of the command by a signal, makes
    [run] print the command with its status in hexadecimal and end the
    process with status 1. *)
Theorem run_returns_only_on_exit_code_zero h dir command w code signal :
  let inside :=
    mkWorld (Py.join2 (cwd w) dir) (environ w) (log w ++ [EvChdir dir]) in
  let call :=
    EvSystem (Py.join2 (cwd w) dir) (environ w) command
      (wait_status code signal) in
  0 <= code < 256 -> 0 <= signal < 128 ->
  permits h w (EvChdir dir) = true ->
  system_status h inside command = wait_status code signal ->
  (code = 0 /\ signal = 0 ->
   fst (run h dir command w) = Ok tt /\
   log (snd (run h dir command w)) = log w ++ [EvChdir dir; call]) /\
  (code <> 0 \/ signal <> 0 ->
   fst (run h dir command w) = Exit 1 /\
   log (snd (run h dir command w))
   = log w ++ [EvChdir dir; call;
               EvPrint ("Command " ++ command ++ " returned with status "
                        ++ Py.fmt_x (wait_status code signal))%string]).
Proof.
  intros inside call Hcode Hsig Hdir Hstatus.
  pose proof (failed_wait_status code signal Hcode Hsig) as Hfailed.
  unfold run, chdir, os_call, system, print, emit, exit, bind, ret.
  rewrite Hdir. cbn [cwd environ log]. fold inside. rewrite Hstatus, Hfailed.
  split.
  - intros [-> ->]. cbn [Z.eqb andb negb fst snd log].
    rewrite <- app_assoc. auto.
  - intros Hbad.
    assert (Hb : ((code =? 0) && (signal =? 0))%bool = false).
    { destruct (Z.eqb_spec code 0), (Z.eqb_spec signal 0); try reflexivity.
      lia. }
    rewrite Hb. cbn [negb fst snd log]. rewrite <- !app_assoc. auto.
Qed.

(** A command killed by signal 9, and one that exits with code 2. *)
Lemma run_returns_only_on_exit_code_zero_witness :
  fst (run (mkHost (fun _ _ => 9) (fun _ _ => true)) "/build" "make" start)
  = Exit 1 /\
  fst (run (mkHost (fun _ _ => 512) (fun _ _ => true)) "/build" "make" start)
  = Exit 1 /\
  log (snd (run (mkHost (fun _ _ => 512) (fun _ _ => true)) "/build" "make"
              start))
  = [EvChdir "/build"; EvSystem "/build" ∅ "make" 512;
     EvPrint "Command make returned with status 200"].
Proof.
  destruct (run_returns_only_on_exit_code_zero
              (mkHost (fun _ _ => 9) (fun _ _ => true)) "/build" "make" start
              0 9) as [_ Hkill]; try reflexivity; try lia.
  destruct (run_returns_only_on_exit_code_zero
              (mkHost (fun _ _ => 512) (fun _ _ => true)) "/build" "make"
              start 2 0) as [_ Hexit]; try reflexivity; try lia.
  destruct Hkill as [Hkill _]; [right; lia|].
  destruct Hexit as [Hexit Hlog]; [left; lia|].
  split; [exact Hkill|]. split; [exact Hexit | exact Hlog].
Defined.

(** *** How a run ends *)

(** X3: on a known platform a command that fails, whichever it is, is the last
    command of the run: the run prints one line and ends in [exit(1)]. *)
Theorem a_failed_command_is_the_last h recipe w pf :
  resolve (imagescriptdir_of (cwd w)) (platform recipe) = Some pf ->
  exists evs,
    log (snd (main h recipe w)) = log w ++ evs /\
    forall pre dir env command status post,
      evs = pre ++ EvSystem dir env command status :: post ->
      failed status = true ->
      fst (main h recipe w) = Exit 1 /\
      exit_status (fst (main h recipe w)) = 1 /\
      exists msg, post = [EvPrint msg].
Proof.
  intros Hpf.
  destruct (trace_post_fail_fast _ _ _ _ _ (main_trace h recipe w pf Hpf))
    as (evs & Hlog & _ & Hfail).
  exists evs. split; [exact Hlog|].
  intros pre d v c st post Hevs Hst.
  destruct (Hfail pre d v c st post Hevs Hst) as [Hexit Hpost].
  rewrite Hexit. auto.
Qed.

(** The image is built and archived, and the upload fails. *)
Lemma a_failed_command_is_the_last_witness :
  let host := failing_on upload_command in
  fst (main host rpi_recipe start) = Exit 1 /\
  exists msg,
    skipn 49 (log (snd (main host rpi_recipe start))) = [EvPrint msg].
Proof.
  intros host.
  destruct (a_failed_command_is_the_last host rpi_recipe start
              (rpi_profile "/build/tasks") eq_refl) as (evs & Hlog & Hfail).
  change (log start ++ evs) with evs in Hlog. subst evs.
  destruct (Hfail (firstn 48 (log (snd (main host rpi_recipe start))))
              "/build/armv6/bin" (image_env (rpi_profile "/build/tasks")
                                    536870912 ∅)
              upload_command 256
              (skipn 49 (log (snd (main host rpi_recipe start)))))
    as (Hexit & _ & Hpost).
  - vm_compute. reflexivity.
  - reflexivity.
  - split; [exact Hexit | exact Hpost].
Defined.

(** X4: the exit status of the process is 0 or 1, and it is 0 only when the
    platform is known, every command of the plan has been issued, and each
    of them exited with code 0. *)
Theorem exit_status_is_zero_or_one h recipe w :
  (exit_status (fst (main h recipe w)) = 0
   \/ exit_status (fst (main h recipe w)) = 1) /\
  (exit_status (fst (main h recipe w)) = 0 ->
   exists pf evs,
     resolve (imagescriptdir_of (cwd w)) (platform recipe) = Some pf /\
     log (snd (main h recipe w)) = log w ++ evs /\
     commands evs = main_plan (cwd w) pf recipe /\
     forall dir env command status,
       In (EvSystem dir env command status) evs -> failed status = false).
Proof.
  destruct (resolve (imagescriptdir_of (cwd w)) (platform recipe))
    as [pf|] eqn:Hpf.
  - destruct (main_trace h recipe w pf Hpf) as (evs & Hlog & H).
    destruct (fst (main h recipe w)) as [a|code|e]; simpl.
    + destruct H as (-> & Hcmds & Hfine). split; [left; reflexivity|].
      intros _. exists pf, evs. repeat split; try assumption.
      intros d v c st Hin. rewrite List.Forall_forall in Hfine.
      destruct (Hfine _ Hin) as [Hst _]. exact Hst.
    + destruct H as (-> & _). split; [right; reflexivity | discriminate].
    + split; [right; reflexivity | discriminate].
  - rewrite main_unfold, Hpf. cbv zeta. unfold bind, print, emit, ret. simpl.
    split; [right; reflexivity | discriminate].
Qed.

(** *** More on the user loop *)




(** *** Text that is not ASCII *)

Lemma is_ascii_app (a b : string) :
  Py.is_ascii (a ++ b)%string = Py.is_ascii a && Py.is_ascii b.
Proof.
  induction a as [|c a IH]; [reflexivity|].
  rewrite append_cons. cbn [Py.is_ascii]. rewrite IH, andb_assoc.
  reflexivity.
Qed.

Lemma safechar_ascii (c : ascii) :
  Py.safechar c = true -> (nat_of_ascii c <? 128)%nat = true.
Proof.
  destruct c as [[] [] [] [] [] [] [] []]; vm_compute; congruence.
Qed.

Lemma all_safe_ascii (s : string) :
  Py.all_safe s = true -> Py.is_ascii s = true.
Proof.
  induction s as [|c s IH]; [reflexivity|]. cbn [Py.all_safe Py.is_ascii].
  intros H. apply andb_prop in H. destruct H as [Hc Hs].
  rewrite (safechar_ascii _ Hc), (IH Hs). reflexivity.
Qed.

Lemma escape_squotes_not_ascii (s : string) :
  Py.is_ascii s = false -> Py.is_ascii (Py.escape_squotes s) = false.
Proof.
  induction s as [|c s IH]; [discriminate|].
  cbn [Py.is_ascii Py.escape_squotes]. intros H.
  destruct (Ascii.eqb_spec c Py.squote) as [-> | _].
  - cbn [Py.is_ascii]. rewrite IH; [reflexivity | exact H].
  - cbn [Py.is_ascii]. apply andb_false_iff in H. destruct H as [H | H].
    + rewrite H. reflexivity.
    + rewrite (IH H). apply andb_false_r.
Qed.

(** Quoting keeps every byte above 127. *)
Lemma quote_not_ascii (s : string) :
  Py.is_ascii s = false -> Py.is_ascii (Py.quote s) = false.
Proof.
  intros H. unfold Py.quote. destruct (Py.all_safe s) eqn:Hsafe.
  - rewrite (all_safe_ascii _ Hsafe) in H. discriminate H.
  - cbn [Py.is_ascii]. rewrite is_ascii_app, (escape_squotes_not_ascii _ H).
    apply andb_false_r.
Qed.

(** So a comment with such a byte leaves the command line built up to line
    191 with one. *)
Lemma useradd_options_not_ascii appsdir gecos extra_args id enabled password :
  Py.is_ascii gecos = false ->
  Py.is_ascii
    (useradd_options appsdir gecos extra_args id enabled password)
  = false.
Proof.
  intros H. unfold useradd_options.
  destruct enabled; rewrite !is_ascii_app, H, ?andb_false_r; reflexivity.
Qed.

(** X9: a comment (gecos) field that decodes to text with a byte above 127,
    an accented letter in UTF-8 for one, stops the turn of a user with a
    name: when the name is put on the command line (line 193) the command
    built so far is decoded as ASCII, which raises [UnicodeDecodeError].  No
    [useradd] has run by then; for [root], the old account has already been
    deleted. *)
Theorem non_ascii_comment_stops_before_useradd h appsdir user next_id w :
  (forall w1 dir, permits h w1 (EvChdir dir) = true) ->
  (forall w1 command, failed (system_status h w1 command) = false) ->
  Py.b64decode (gecos user) <> None ->
  Py.b64decode (password user) <> None ->
  username user <> EmptyString ->
  Py.is_ascii (decoded (gecos user)) = false ->
  exists evs,
    fst (add_user h appsdir user next_id w)
    = Raise (UnicodeDecodeError (user_options appsdir next_id user)) /\
    log (snd (add_user h appsdir user next_id w)) = log w ++ evs /\
    commands evs = if is_root user then [spec_userdel appsdir] else [].
Proof.
  intros Hdir Hst Hgecos Hpw Hname Hbyte.
  destruct (Py.b64decode (gecos user)) as [g|] eqn:Hg; [|congruence].
  destruct (Py.b64decode (password user)) as [p|] eqn:Hp; [|congruence].
  assert (Hdg : forall w1, b64decode (gecos user) w1 = (Ok g, w1))
    by (intros; unfold b64decode; rewrite Hg; reflexivity).
  assert (Hdp : forall w1, b64decode (password user) w1 = (Ok p, w1))
    by (intros; unfold b64decode; rewrite Hp; reflexivity).
  assert (Hg' : decoded (gecos user) = g)
    by (unfold decoded; rewrite Hg; reflexivity).
  assert (Hp' : decoded (password user) = p)
    by (unfold decoded; rewrite Hp; reflexivity).
  assert (Hraise : forall extra_args id w1,
             decode_ascii
               (joined_to_quoted (username user)
                  (useradd_options appsdir (Py.quote g) extra_args id
                     (enable_password user) (Py.quote p))) w1
             = (Raise
                  (UnicodeDecodeError
                     (useradd_options appsdir (Py.quote g) extra_args id
                        (enable_password user) (Py.quote p))), w1)).
  { intros. rewrite (joined_to_quoted_text _ _ Hname). unfold decode_ascii.
    rewrite useradd_options_not_ascii; [reflexivity|].
    apply quote_not_ascii. rewrite <- Hg'. exact Hbyte. }
  unfold user_options, user_id, is_root.
  rewrite <- (quote_root (username user)). unfold add_user.
  rewrite Hg', Hp'.
  rewrite (bind_eq_ok _ _ _ _ _ (Hdg w)), (bind_eq_ok _ _ _ _ _ (Hdp w)).
  destruct (String.eqb (Py.quote (username user)) "root").
  - erewrite (bind_eq_ok (bind _ _)).
    2:{ erewrite bind_eq_ok by (apply run_on_success; auto). reflexivity. }
    cbn [fst snd].
    erewrite bind_eq_raise by apply Hraise.
    cbn [fst snd log]. eexists. split; [reflexivity|].
    split; reflexivity.
  - erewrite (bind_eq_ok (ret _)) by reflexivity.
    cbn [fst snd].
    erewrite bind_eq_raise by apply Hraise.
    cbn [fst snd log]. exists []. split; [reflexivity|].
    split; [rewrite app_nil_r|]; reflexivity.
Qed.

(** Jose's comment is his name with an acute accent, in UTF-8: the five
    bytes 74, 111, 115, 195, 169. *)
Definition user_jose : UserSpec :=
  mkUser "jose" "Sm9zw6k=" false EmptyString EmptyString.

Lemma non_ascii_comment_stops_before_useradd_witness :
  decoded (gecos user_jose)
  = ("Jos" ++ String (ascii_of_nat 195) (String (ascii_of_nat 169) EmptyString))
      %string /\
  (exists data,
     fst (add_user obliging pc_appsdir user_jose 1000 start)
     = Raise (UnicodeDecodeError data)) /\
  commands (log (snd (add_user obliging pc_appsdir user_jose 1000 start)))
  = [].
Proof.
  split; [vm_compute; reflexivity|].
  destruct (non_ascii_comment_stops_before_useradd obliging pc_appsdir
              user_jose 1000 start)
    as (evs & Hraise & Hlog & Hcmds);
    try reflexivity; try (vm_compute; discriminate).
  split; [eexists; exact Hraise|].
  change (log start ++ evs) with evs in Hlog. rewrite Hlog. exact Hcmds.
Defined.

(** X7: a username that is an absolute path, made of safe characters only, is
    used as it is, and [os.path.join] drops what precedes an absolute
    component: the keys of such a user are written to [<username>/.ssh],
    outside the apps directory. *)
Theorem absolute_username_leaves_the_apps_directory
    h appsdir user next_id w n' w' :
  Py.all_safe (username user) = true ->
  Py.starts_with_slash (username user) = true ->
  Py.ends_with_slash (username user) = false ->
  decoded (ssh_authorized_keys user) <> EmptyString ->
  add_user h appsdir user next_id w = (Ok n', w') ->
  exists evs,
    log w' = log w ++ evs /\
    In (EvMkdir (username user ++ "/.ssh")%string) evs /\
    In (EvWrite (username user ++ "/.ssh/authorized_keys")%string
          (decoded (ssh_authorized_keys user))) evs.
Proof.
  intros Hsafe Hstart Hend Hkeys Hrun.
  destruct (add_user_ok _ _ _ _ _ _ _ Hrun) as (evs & _ & _ & Hlog).
  apply String.eqb_neq in Hkeys. rewrite Hkeys in Hlog.
  assert (Hne : username user <> EmptyString).
  { intros Heq. rewrite Heq in Hstart. discriminate Hstart. }
  assert (Hquote : Py.quote (username user) = username user).
  { unfold Py.quote. rewrite Hsafe.
    apply String.eqb_neq in Hne. rewrite Hne. reflexivity. }
  rewrite Hquote in Hlog.
  assert (Hdot : Py.join appsdir ["home"; username user; ".ssh"]
                 = (username user ++ "/.ssh")%string).
  { unfold Py.join. cbn [fold_left].
    unfold Py.join2 at 2. rewrite Hstart.
    rewrite <- (append_nil (username user)) at 1.
    rewrite (join2_relative EmptyString (username user) ".ssh")
      by (assumption || reflexivity).
    reflexivity. }
  assert (Hkeyspath :
    Py.join (Py.join appsdir ["home"; username user; ".ssh"])
      ["authorized_keys"]
    = (username user ++ "/.ssh/authorized_keys")%string).
  { rewrite Hdot. unfold Py.join. cbn [fold_left].
    rewrite (join2_relative (username user) "/.ssh" "authorized_keys")
      by (reflexivity || discriminate).
    reflexivity. }
  eexists. split; [exact Hlog|]. split.
  - apply in_or_app. right. unfold key_events. rewrite Hdot.
    left. reflexivity.
  - apply in_or_app. right. unfold key_events. rewrite Hkeyspath.
    right. right. left. reflexivity.
Qed.

(** A user named [/etc]. *)
Definition user_etc : UserSpec :=
  mkUser "/etc" "RXRj" false EmptyString "c3NoLXJzYSBBQUFB".

Lemma absolute_username_leaves_the_apps_directory_witness :
  In (EvMkdir "/etc/.ssh")
     (log (snd (add_user obliging pc_appsdir user_etc 1000 start))) /\
  In (EvWrite "/etc/.ssh/authorized_keys" "ssh-rsa AAAA")
     (log (snd (add_user obliging pc_appsdir user_etc 1000 start))).
Proof.
  destruct (absolute_username_leaves_the_apps_directory obliging pc_appsdir
              user_etc 1000 start 1001
              (snd (add_user obliging pc_appsdir user_etc 1000 start)))
    as (evs & Hlog & Hmk & Hwr);
    try (vm_compute; reflexivity); try (vm_compute; discriminate).
  change (log start ++ evs) with evs in Hlog. rewrite Hlog.
  split; [exact Hmk | exact Hwr].
Defined.

(** *** UIDs are not shared *)

Lemma spec_users_commands_app appsdir xs :
  forall before ys,
    spec_users_commands appsdir before (xs ++ ys)
    = spec_users_commands appsdir before xs
      ++ spec_users_commands appsdir (before ++ xs) ys.
Proof.
  induction xs as [|x xs IH]; intros before ys; simpl.
  - rewrite app_nil_r. reflexivity.
  - rewrite IH, <- !app_assoc. reflexivity.
Qed.

(** The number of users of a list that are not [root]. *)
Definition others (users : list UserSpec) : Z :=
  Z.of_nat (length (List.filter (fun u => negb (is_root u)) users)).

Lemma spec_users_commands_split appsdir before xs u ys :
  is_root u = false ->
  spec_users_commands appsdir before (xs ++ u :: ys)
  = spec_users_commands appsdir before xs
    ++ spec_useradd appsdir EmptyString (1000 + others (before ++ xs)) u
    :: spec_users_commands appsdir ((before ++ xs) ++ [u]) ys.
Proof.
  intros Hu. rewrite spec_users_commands_app. f_equal.
  cbn [spec_users_commands]. unfold spec_user_commands, spec_uid.
  rewrite Hu. reflexivity.
Qed.

(** X5: two users other than [root] never get the same UID, whatever their
    names (two entries with one username included): in a run that returns
    0, each is created by the [useradd] line of the specification, which
    carries [-u] and the decimal numeral of 1000 plus the number of
    non-root users before it; the one that comes later in [user_list] has a
    strictly larger UID, and the numerals on the two lines differ. *)
Theorem two_users_never_share_a_uid h recipe w pf xs u mid v ys :
  let appsdir := appsdir_of (cwd w) pf in
  let id_u := 1000 + others xs in
  let id_v := 1000 + others (xs ++ u :: mid) in
  resolve (imagescriptdir_of (cwd w)) (platform recipe) = Some pf ->
  user_list recipe = xs ++ u :: mid ++ v :: ys ->
  username u <> "root" -> username v <> "root" ->
  fst (main h recipe w) = Ok 0 ->
  id_u < id_v /\
  decimal id_u <> decimal id_v /\
  exists evs before between after,
    log (snd (main h recipe w)) = log w ++ evs /\
    commands evs
    = before ++ spec_useradd appsdir EmptyString id_u u
      :: between ++ spec_useradd appsdir EmptyString id_v v :: after.
Proof.
  intros appsdir id_u id_v Hpf Husers Hu Hv Hret.
  apply String.eqb_neq in Hu, Hv. fold (is_root u) in Hu. fold (is_root v) in Hv.
  assert (Hlt : id_u < id_v).
  { unfold id_u, id_v, others. rewrite List.filter_app, length_app.
    cbn [List.filter]. rewrite Hu. cbn [negb length]. lia. }
  split; [exact Hlt|]. split.
  - intros Heq. apply decimal_inj in Heq. lia.
  - destruct (main_image_env h recipe w pf Hpf) as (evs & Hlog & _ & Hok).
    exists evs. rewrite (Hok Hret). unfold main_plan. fold appsdir.
    pose proof (users_plan_spec appsdir (user_list recipe) []) as Hspec.
    change (1000 + Z.of_nat
              (length (List.filter (fun u => negb (is_root u)) [])))
      with 1000 in Hspec.
    rewrite Hspec, Husers.
    rewrite (spec_users_commands_split appsdir [] xs u _ Hu).
    rewrite (spec_users_commands_split appsdir _ mid v _ Hv).
    cbn [app].
    replace ((xs ++ [u]) ++ mid) with (xs ++ u :: mid)
      by (rewrite <- app_assoc; reflexivity).
    fold id_u. fold id_v.
    exists (populate_plan appsdir
            ++ packages_plan (cwd w) (arch pf) appsdir (package_list recipe)
            ++ spec_users_commands appsdir [] xs),
      (spec_users_commands appsdir ([] ++ xs ++ [u]) mid),
      (spec_users_commands appsdir (([] ++ xs ++ [u]) ++ mid ++ [v]) ys
       ++ final_plan pf).
    split; [exact Hlog|].
    repeat (rewrite <- app_assoc || rewrite <- app_comm_cons).
    reflexivity.
Qed.

(** Two entries named alice are created with [-u1000] and [-u1001]. *)
Lemma two_users_never_share_a_uid_witness :
  exists before between after,
    commands (log (snd (main obliging (accounts [user_alice; user_alice])
                          start)))
    = before ++ line_add_alice "1000"
      :: between ++ line_add_alice "1001" :: after.
Proof.
  assert (Hret : fst (main obliging (accounts [user_alice; user_alice]) start)
                 = Ok 0) by (vm_compute; reflexivity).
  assert (Halice : username user_alice <> "root") by discriminate.
  destruct (two_users_never_share_a_uid obliging
              (accounts [user_alice; user_alice]) start
              (pc_profile "/build/tasks") [] user_alice [] user_alice []
              eq_refl eq_refl Halice Halice Hret)
    as (_ & _ & evs & before & between & after & Hlog & Hcmds).
  change (log start ++ evs) with evs in Hlog. rewrite Hlog, Hcmds.
  exists before, between, after.
  repeat match goal with
         | |- context [spec_useradd ?a ?e ?n ?u] =>
             let line := eval vm_compute in (spec_useradd a e n u) in
             replace (spec_useradd a e n u) with line
               by (vm_compute; reflexivity)
         end.
  reflexivity.
Defined.

(** *** What the stages leave alone *)

(** A command event that ran in the environment [env]; any other event. *)
Definition ran_in (env : Env) (e : Event) : Prop :=
  match e with
  | EvSystem _ v _ _ => v = env
  | _ => True
  end.

(** A computation that leaves [os.environ] as it found it, so that each of
    its commands runs in the environment it started with. *)
Definition steady {A} (m : M A) : Prop :=
  forall w,
    environ (snd (m w)) = environ w /\
    exists evs,
      log (snd (m w)) = log w ++ evs /\ Forall (ran_in (environ w)) evs.

Lemma steady_ret {A} (a : A) : steady (ret a).
Proof.
  intros w. split; [reflexivity|]. exists []. simpl.
  rewrite app_nil_r. auto.
Qed.

Lemma steady_bind {A B} (m : M A) (k : A -> M B) :
  steady m -> (forall a, steady (k a)) -> steady (bind m k).
Proof.
  intros Hm Hk w. unfold bind.
  destruct (Hm w) as (Henv1 & evs1 & Hlog1 & Hall1).
  destruct (m w) as [[a|code|e] w1]; simpl in *; eauto.
  destruct (Hk a w1) as (Henv2 & evs2 & Hlog2 & Hall2).
  split; [congruence|].
  exists (evs1 ++ evs2). rewrite Hlog2, Hlog1, app_assoc.
  split; [reflexivity|]. apply Forall_app. split; [assumption|].
  rewrite Henv1 in Hall2. exact Hall2.
Qed.

Lemma steady_emit e : commands [e] = [] -> steady (emit e).
Proof.
  intros He w. split; [reflexivity|]. exists [e]. split; [reflexivity|].
  destruct e; try discriminate He; repeat constructor.
Qed.

Lemma steady_print msg : steady (print msg).
Proof. apply steady_emit. reflexivity. Qed.

Lemma steady_os_call h e : commands [e] = [] -> steady (os_call h e).
Proof.
  intros He w. unfold os_call.
  destruct (permits h w e); (split; [reflexivity|]); exists [e];
    (split; [reflexivity|]);
    destruct e; try discriminate He; repeat constructor.
Qed.

Lemma steady_b64decode s : steady (b64decode s).
Proof.
  intros w. unfold b64decode.
  destruct (Py.b64decode s); (split; [reflexivity|]); exists []; simpl;
    rewrite app_nil_r; auto.
Qed.

Lemma steady_decode_ascii data : steady (decode_ascii data).
Proof.
  intros w. unfold decode_ascii.
  destruct (Py.is_ascii data); (split; [reflexivity|]); exists []; simpl;
    rewrite app_nil_r; auto.
Qed.

Lemma steady_run h dir command : steady (run h dir command).
Proof.
  intros w. unfold run, chdir, os_call, system, print, emit, exit, bind, ret.
  destruct (permits h w (EvChdir dir)); simpl.
  - match goal with
    | |- context [failed ?st] => destruct (failed st)
    end; simpl; (split; [reflexivity|]); eexists; rewrite <- !app_assoc;
      (split; [reflexivity | repeat constructor]).
  - split; [reflexivity|]. exists [EvChdir dir].
    split; [reflexivity | repeat constructor].
Qed.

Lemma steady_for_each {A} (body : A -> M unit) xs :
  (forall x, steady (body x)) -> steady (for_each xs body).
Proof.
  intros Hbody. induction xs as [|x xs IH]; simpl.
  - apply steady_ret.
  - apply steady_bind; [apply Hbody | intros _; exact IH].
Qed.

Lemma steady_for_each_with {A S} (body : A -> S -> M S) xs :
  (forall x s, steady (body x s)) ->
  forall s, steady (for_each_with xs body s).
Proof.
  intros Hbody. induction xs as [|x xs IH]; intros s; simpl.
  - apply steady_ret.
  - apply steady_bind; [apply Hbody | intros s'; apply IH].
Qed.

Ltac steady_auto :=
  repeat first
    [ apply steady_ret
    | apply steady_print
    | apply steady_b64decode
    | apply steady_decode_ascii
    | apply steady_run
    | apply steady_emit; reflexivity
    | apply steady_os_call; reflexivity
    | apply steady_bind; [|intros ?]
    | apply steady_for_each; intros ?
    | apply steady_for_each_with; intros ? ?
    | match goal with
      | |- steady (if ?b then _ else _) => destruct b
      end ].

Lemma steady_populate_apps h binroot appsdir :
  steady (populate_apps h binroot appsdir).
Proof. unfold populate_apps, copy_item. steady_auto. Qed.

Lemma steady_install_packages h cwd arch appsdir packages :
  steady (install_packages h cwd arch appsdir packages).
Proof. unfold install_packages, install_package. steady_auto. Qed.

Lemma steady_add_users h appsdir users :
  steady (add_users h appsdir users).
Proof.
  unfold add_users. apply steady_for_each_with. intros user next_id.
  unfold add_user, add_authorized_keys. steady_auto.
Qed.

Lemma steady_archive_and_upload h binroot pf :
  steady (archive_and_upload h binroot pf).
Proof. unfold archive_and_upload. steady_auto. Qed.

Lemma bind_assoc {A B C} (m : M A) (k1 : A -> M B) (k2 : B -> M C) w :
  bind (bind m k1) k2 w = bind m (fun a => bind (k1 a) k2) w.
Proof. unfold bind. destruct (m w) as [[a|code|e] w1]; reflexivity. Qed.

(** Lines 113-217 of [main]: everything before the image is built. *)
Definition early (h : Host) (cwd : string) (pf : Profile) (recipe : Recipe)
  : M Z :=
  populate_apps h (binroot_of cwd pf) (appsdir_of cwd pf) ;;
  install_packages h cwd (arch pf) (appsdir_of cwd pf) (package_list recipe) ;;
  add_users h (appsdir_of cwd pf) (user_list recipe).

(** Lines 223-260 of [main]. *)
Definition late (h : Host) (cwd : string) (pf : Profile) (recipe : Recipe)
  : M Z :=
  create_image h (binroot_of cwd pf) pf (image_size recipe) ;;
  archive_and_upload h (binroot_of cwd pf) pf ;;
  ret 0.

Definition early_plan (cwd : string) (pf : Profile) (recipe : Recipe)
  : list string :=
  populate_plan (appsdir_of cwd pf)
  ++ packages_plan cwd (arch pf) (appsdir_of cwd pf) (package_list recipe)
  ++ users_plan (appsdir_of cwd pf) 1000 (user_list recipe).

Lemma main_early_late h recipe w pf :
  resolve (imagescriptdir_of (cwd w)) (platform recipe) = Some pf ->
  main h recipe w
  = bind (early h (cwd w) pf recipe) (fun _ => late h (cwd w) pf recipe)
      (mkWorld (cwd w) (environ w)
         (log w ++ [EvOpen "build_request.json" "r"])).
Proof.
  intros Hpf. rewrite main_unfold, Hpf. cbv zeta. unfold early, late.
  rewrite !bind_assoc. unfold bind.
  destruct (populate_apps _ _ _ _) as [[a|code|e] w1]; try reflexivity.
  destruct (install_packages _ _ _ _ _ _) as [[a'|code|e] w2]; reflexivity.
Qed.

Lemma steady_early h cwd pf recipe : steady (early h cwd pf recipe).
Proof.
  unfold early.
  apply steady_bind; [apply steady_populate_apps | intros _].
  apply steady_bind; [apply steady_install_packages | intros _].
  apply steady_add_users.
Qed.

Lemma stage_early env1 h cwd pf recipe w :
  stage_post (script_env env1) (early_plan cwd pf recipe)
    (users_next_id 1000 (user_list recipe)) w (early h cwd pf recipe w).
Proof.
  unfold early, early_plan.
  eapply stage_bind; [apply stage_populate_apps | intros w1 _].
  eapply stage_bind; [apply stage_install_packages | intros w2 _].
  apply stage_add_users.
Qed.

(** [late] is a steady computation started in the image environment. *)
Lemma late_eq h here pf recipe w :
  late h here pf recipe w
  = ((print "Creating final image." ;;
      run h (binroot_of here pf) (image_command pf)) ;;
     archive_and_upload h (binroot_of here pf) pf ;; ret 0)
      (mkWorld (cwd w)
         (image_env pf (image_size recipe) (environ w)) (log w)).
Proof.
  unfold late. unfold bind at 1 3. rewrite create_image_eq. reflexivity.
Qed.

(** X8: the environment is changed at one place only.  In every run on a known
    platform the set-up, package and account commands all run in the
    environment the build started with; the image script and the commands
    after it run in that environment with [CI_MIN_IMAGE_SIZE], [ARCH],
    [DEBUG] (and [VARIANT] on the Galileo) set. *)
Theorem environment_changes_only_for_the_image h recipe w pf :
  resolve (imagescriptdir_of (cwd w)) (platform recipe) = Some pf ->
  exists evs1 evs2,
    log (snd (main h recipe w)) = log w ++ evs1 ++ evs2 /\
    Forall (ran_in (environ w)) evs1 /\
    Forall (ran_in (image_env pf (image_size recipe) (environ w))) evs2 /\
    (exists rest, early_plan (cwd w) pf recipe = commands evs1 ++ rest) /\
    (exists rest, final_plan pf = commands evs2 ++ rest) /\
    (evs2 <> [] -> commands evs1 = early_plan (cwd w) pf recipe).
Proof.
  intros Hpf. rewrite (main_early_late h recipe w pf Hpf).
  set (w0 := mkWorld (cwd w) (environ w)
               (log w ++ [EvOpen "build_request.json" "r"])).
  destruct (steady_early h (cwd w) pf recipe w0)
    as (Henv & evs1 & Hlog1 & Hall1).
  destruct (stage_early ∅ h (cwd w) pf recipe w0)
    as (_ & evs1' & Hlog1' & H1).
  rewrite Hlog1 in Hlog1'. apply app_inv_head in Hlog1'. subst evs1'.
  unfold bind.
  destruct (early h (cwd w) pf recipe w0) as [[a|code|e] w1];
    cbn [fst snd] in *.
  - destruct H1 as (_ & Hcmds & _).
    rewrite late_eq.
    set (w1' := mkWorld (cwd w1)
                  (image_env pf (image_size recipe) (environ w1)) (log w1)).
    assert (Hsteady :
      steady ((print "Creating final image." ;;
               run h (binroot_of (cwd w) pf) (image_command pf)) ;;
              archive_and_upload h (binroot_of (cwd w) pf) pf ;; ret 0)).
    { unfold archive_and_upload. steady_auto. }
    destruct (Hsteady w1') as (_ & evs2 & Hlog2 & Hall2).
    pose proof (trace_final h (binroot_of (cwd w) pf) pf (image_size recipe)
                  w1) as Hfinal.
    fold (late h (cwd w) pf recipe) in Hfinal. rewrite late_eq in Hfinal.
    fold w1' in Hfinal.
    destruct (trace_post_fail_fast _ _ _ _ _ Hfinal)
      as (evs2' & Hlog2' & Hrest2 & _).
    change (log w1') with (log w1) in Hlog2.
    rewrite Hlog2 in Hlog2'. apply app_inv_head in Hlog2'. subst evs2'.
    exists (EvOpen "build_request.json" "r" :: evs1), evs2.
    split.
    { rewrite Hlog2, Hlog1. unfold w0. cbn [log].
      rewrite <- !app_assoc. reflexivity. }
    split; [constructor; [exact I | exact Hall1]|].
    split.
    { change (environ w1') with (image_env pf (image_size recipe) (environ w1))
        in Hall2.
      rewrite Henv in Hall2. exact Hall2. }
    split; [exists []; rewrite app_nil_r; symmetry; exact Hcmds|].
    split; [exact Hrest2|]. intros _. exact Hcmds.
  - destruct H1 as (_ & pre & d & v & c & st & msg & rest & Hevs & _ & _ & _
                    & Hplan).
    exists (EvOpen "build_request.json" "r" :: evs1), [].
    split; [rewrite Hlog1, app_nil_r; unfold w0; cbn [log];
            rewrite <- app_assoc; reflexivity|].
    split; [constructor; [exact I | exact Hall1]|].
    split; [constructor|].
    split.
    { exists rest. rewrite Hplan, Hevs. cbn [commands].
      rewrite !commands_app, <- app_assoc. reflexivity. }
    split; [exists (final_plan pf); reflexivity | congruence].
  - destruct H1 as (_ & rest & Hplan).
    exists (EvOpen "build_request.json" "r" :: evs1), [].
    split; [rewrite Hlog1, app_nil_r; unfold w0; cbn [log];
            rewrite <- app_assoc; reflexivity|].
    split; [constructor; [exact I | exact Hall1]|].
    split; [constructor|].
    split; [exists rest; exact Hplan|].
    split; [exists (final_plan pf); reflexivity | congruence].
Qed.

(** A Galileo build started with [VARIANT] already set. *)
Definition galileo_profile : Profile :=
  mkProfile "x86q"
    (Py.join (imagescriptdir_of "/build/tasks") ["build_pcefi.sh"])
    "pcefi.img".

Lemma environment_changes_only_for_the_image_witness :
  let w := mkWorld "/build/tasks" (<["VARIANT" := "old"]> ∅) [] in
  let recipe := mkRecipe "Intel Galileo" [] [user_bob] 1024 in
  fst (main obliging recipe w) = Ok 0 /\
  image_env galileo_profile 1024 (environ w) !! "VARIANT" = Some "q" /\
  exists evs1 evs2,
    log (snd (main obliging recipe w)) = log w ++ evs1 ++ evs2 /\
    Forall (ran_in (environ w)) evs1 /\
    Forall (ran_in (image_env galileo_profile (image_size recipe) (environ w)))
      evs2.
Proof.
  intros w recipe.
  split; [vm_compute; reflexivity|]. split; [vm_compute; reflexivity|].
  destruct (environment_changes_only_for_the_image obliging recipe w
              galileo_profile eq_refl)
    as (evs1 & evs2 & Hlog & Hall1 & Hall2 & _).
  exists evs1, evs2. split; [exact Hlog|]. split; [exact Hall1 | exact Hall2].
Defined.

(** *** The apps directory *)

(** A computation that only adds to the log. *)
Definition appends {A} (m : M A) : Prop :=
  forall w, exists evs, log (snd (m w)) = log w ++ evs.

Lemma steady_appends {A} (m : M A) : steady m -> appends m.
Proof. intros H w. destruct (H w) as (_ & evs & Hlog & _). eauto. Qed.

Lemma appends_bind {A B} (m : M A) (k : A -> M B) :
  appends m -> (forall a, appends (k a)) -> appends (bind m k).
Proof.
  intros Hm Hk w. unfold bind. destruct (Hm w) as (evs1 & Hlog1).
  destruct (m w) as [[a|code|e] w1]; simpl in *; eauto.
  destruct (Hk a w1) as (evs2 & Hlog2).
  exists (evs1 ++ evs2). rewrite Hlog2, Hlog1, app_assoc. reflexivity.
Qed.

Lemma appends_late h here pf recipe : appends (late h here pf recipe).
Proof.
  intros w. rewrite late_eq.
  assert (Hsteady :
    steady ((print "Creating final image." ;;
             run h (binroot_of here pf) (image_command pf)) ;;
            archive_and_upload h (binroot_of here pf) pf ;; ret 0)).
  { unfold archive_and_upload. steady_auto. }
  destruct (Hsteady (mkWorld (cwd w)
                       (image_env pf (image_size recipe) (environ w)) (log w)))
    as (_ & evs & Hlog & _).
  exists evs. exact Hlog.
Qed.

Lemma bind_congr {A B} (m m' : M A) (k : A -> M B) w w' :
  m w = m' w' -> bind m k w = bind m' k w'.
Proof. intros H. unfold bind. rewrite H. reflexivity. Qed.

(** [populate_apps] starts by removing the apps directory and making it
    anew; should the directory not be makeable, nothing else happens. *)
Lemma populate_apps_start h binroot appsdir w :
  let w1 := mkWorld (cwd w) (environ w) (log w ++ [EvRmtree appsdir]) in
  let w2 :=
    mkWorld (cwd w) (environ w) (log w ++ [EvRmtree appsdir; EvMkdir appsdir])
  in
  if permits h w1 (EvMkdir appsdir)
  then exists m : M unit,
         steady m /\ populate_apps h binroot appsdir w = m w2
  else populate_apps h binroot appsdir w
       = (Raise (OSError (EvMkdir appsdir)), w2).
Proof.
  intros w1 w2.
  assert (Hw2 : mkWorld (cwd w1) (environ w1) (log w1 ++ [EvMkdir appsdir])
                = w2).
  { unfold w1, w2. cbn [cwd environ log]. rewrite <- app_assoc. reflexivity. }
  destruct (permits h w1 (EvMkdir appsdir)) eqn:Hperm.
  - eexists. split; cycle 1.
    + unfold populate_apps.
      unfold bind at 1. unfold emit. cbv beta iota. fold w1.
      unfold bind at 1. unfold os_call at 1. rewrite Hperm, Hw2.
      reflexivity.
    + unfold copy_item. steady_auto.
  - unfold populate_apps.
    unfold bind at 1. unfold emit. cbv beta iota. fold w1.
    unfold bind at 1. unfold os_call at 1. rewrite Hperm, Hw2.
    reflexivity.
Qed.

(** X2: every run on a known platform begins by removing the old apps directory
    (errors ignored) and making it anew: after the recipe file is read,
    these are the first two calls, before anything is copied or run.  If
    the directory cannot be made the run dies of [OSError] there. *)
Theorem apps_directory_is_rebuilt_first h recipe w pf :
  resolve (imagescriptdir_of (cwd w)) (platform recipe) = Some pf ->
  let appsdir := appsdir_of (cwd w) pf in
  let before_mkdir :=
    mkWorld (cwd w) (environ w)
      (log w ++ [EvOpen "build_request.json" "r"; EvRmtree appsdir]) in
  exists rest,
    log (snd (main h recipe w))
    = log w ++ [EvOpen "build_request.json" "r"; EvRmtree appsdir;
                EvMkdir appsdir] ++ rest /\
    (permits h before_mkdir (EvMkdir appsdir) = false ->
     fst (main h recipe w) = Raise (OSError (EvMkdir appsdir)) /\ rest = []).
Proof.
  intros Hpf appsdir before_mkdir.
  rewrite (main_early_late h recipe w pf Hpf). unfold early.
  rewrite bind_assoc.
  set (w0 := mkWorld (cwd w) (environ w)
               (log w ++ [EvOpen "build_request.json" "r"])).
  pose proof (populate_apps_start h (binroot_of (cwd w) pf) appsdir w0)
    as Hstart.
  cbv zeta in Hstart.
  assert (Hb : mkWorld (cwd w0) (environ w0) (log w0 ++ [EvRmtree appsdir])
               = before_mkdir).
  { unfold before_mkdir, w0. cbn [cwd environ log].
    rewrite <- app_assoc. reflexivity. }
  assert (Hlog2 : log w0 ++ [EvRmtree appsdir; EvMkdir appsdir]
                  = log w ++ [EvOpen "build_request.json" "r";
                              EvRmtree appsdir; EvMkdir appsdir]).
  { unfold w0. cbn [log]. rewrite <- app_assoc. reflexivity. }
  rewrite Hb in Hstart. fold appsdir.
  destruct (permits h before_mkdir (EvMkdir appsdir)).
  - destruct Hstart as (m & Hm & Heq).
    rewrite (bind_congr _ _ _ _ _ Heq).
    match goal with
    | |- context [bind m ?k ?w2] =>
        assert (Happ : appends (bind m k)); [|destruct (Happ w2) as (rest & Hrest)]
    end.
    { apply appends_bind; [apply steady_appends, Hm | intros _].
      apply appends_bind; [|intros _; apply appends_late].
      apply steady_appends.
      apply steady_bind; [apply steady_install_packages | intros _].
      apply steady_add_users. }
    exists rest. split; [|discriminate].
    rewrite Hrest. cbn [log]. rewrite Hlog2, <- app_assoc. reflexivity.
  - rewrite (bind_eq_raise _ _ _ _ _ Hstart). cbn [fst snd log].
    exists []. split; [|auto].
    rewrite Hlog2, app_nil_r. reflexivity.
Qed.

Lemma apps_directory_is_rebuilt_first_witness :
  fst (main read_only rpi_recipe start)
  = Raise (OSError (EvMkdir "/build/armv6/bin/apps")) /\
  log (snd (main read_only rpi_recipe start))
  = [EvOpen "build_request.json" "r"; EvRmtree "/build/armv6/bin/apps";
     EvMkdir "/build/armv6/bin/apps"].
Proof.
  destruct (apps_directory_is_rebuilt_first read_only rpi_recipe start
              (rpi_profile "/build/tasks") eq_refl)
    as (rest & Hlog & Hrefused).
  destruct Hrefused as [Hraise ->]; [reflexivity|].
  split; [exact Hraise | exact Hlog].
Defined.

(** The Raspberry Pi recipe on a host where everything succeeds: status 0,
    and every command of the plan in the log. *)
Lemma exit_status_is_zero_or_one_witness :
  exit_status (fst (main obliging rpi_recipe start)) = 0 /\
  exists evs,
    log (snd (main obliging rpi_recipe start)) = log start ++ evs /\
    commands evs = main_plan (cwd start) (rpi_profile "/build/tasks") rpi_recipe.
Proof.
  assert (Hzero : exit_status (fst (main obliging rpi_recipe start)) = 0)
    by (vm_compute; reflexivity).
  split; [exact Hzero|].
  destruct (exit_status_is_zero_or_one obliging rpi_recipe start) as [_ Hplan].
  destruct (Hplan Hzero) as (pf & evs & Hpf & Hlog & Hcmds & _).
  assert (Hpf' : Some pf = Some (rpi_profile "/build/tasks"))
    by (rewrite <- Hpf; reflexivity).
  injection Hpf' as ->.
  exists evs. split; [exact Hlog | exact Hcmds].
Defined.
